(** * Cluster generation of the pilot (CDS output), v1alpha3

    A shallow embedding of [pilot/pkg/networking/v1alpha3/cluster.go] and the
    properties of the clusters it builds.

    Conventions of the embedding.
    - A Go package is a [Module] of the same name; a struct is a [Record]
      whose fields keep their Go names ([Type] is spelled [Type_]).
    - A pointer the code tests against [nil] is an [option]; a pointer the
      code dereferences without a test (the mesh durations, ports, subsets,
      the service of an instance) is a plain value: a [nil] there is a
      run-time panic and no cluster list is returned at all.
    - A cluster is built and then mutated through its pointer; no cluster is
      reachable from two places of the output, so a mutation is a function
      [Cluster -> Cluster] and the statements of a Go function are composed
      in their order.
    - [int32], [uint32], [int64] and [time.Duration] are [Z]; conversions and
      the one multiplication that can overflow are written out.
    - Logging is not modelled. *)

From Stdlib Require Import ZArith List String Bool Lia.
Import ListNotations.
Local Open Scope string_scope.
Local Open Scope list_scope.
Local Open Scope Z_scope.

Set Implicit Arguments.

(** ** Machine integers *)

(** Go's conversion [uint32(x)] of a signed integer. *)
Definition uint32 (x : Z) : Z := x mod 2 ^ 32.

(** The value of a 64-bit two's complement integer after wrap-around. *)
Definition wrap64 (x : Z) : Z := (x + 2 ^ 63) mod 2 ^ 64 - 2 ^ 63.

(** ** Package [time] *)
Module time.
(** [time.Duration] is an [int64] count of nanoseconds. *)
Definition Duration : Type := Z.
Definition Second : Duration := 1000000000.
(** Product of two durations as Go computes it. *)
Definition mul (a b : Duration) : Duration := wrap64 (a * b).
End time.

(** ** Package [types] (gogo protobuf well-known types) *)
Module types.
Record Duration : Type := { Seconds : Z; Nanos : Z }.
End types.

(** ** Package [core] *)
Module core.
(** A socket address: IP and port value. *)
Record Address : Type := { SocketAddress : string; PortValue : Z }.

Inductive ApiConfigSource_ApiType : Type :=
| ApiConfigSource_REST_LEGACY
| ApiConfigSource_REST
| ApiConfigSource_GRPC.

Record ApiConfigSource : Type := {
  ApiType : ApiConfigSource_ApiType;
  ClusterNames : list string;
  RefreshDelay : option time.Duration
}.

(** The only config source specifier the code builds is an API source. *)
Record ConfigSource : Type := { ConfigSourceSpecifier : ApiConfigSource }.

Record DataSource : Type := { Filename : string }.

Record Http2ProtocolOptions : Type := { }.
End core.

(** ** Package [v2_cluster] *)
Module v2_cluster.
Record CircuitBreakers_Thresholds : Type := {
  MaxConnections : option Z;
  MaxPendingRequests : option Z;
  MaxRequests : option Z;
  MaxRetries : option Z
}.

(** Assignments to one field of a thresholds record. *)
Definition set_MaxConnections (t : CircuitBreakers_Thresholds)
    (v : option Z) : CircuitBreakers_Thresholds :=
  {| MaxConnections := v; MaxPendingRequests := MaxPendingRequests t;
     MaxRequests := MaxRequests t; MaxRetries := MaxRetries t |}.

Definition set_MaxPendingRequests (t : CircuitBreakers_Thresholds)
    (v : option Z) : CircuitBreakers_Thresholds :=
  {| MaxConnections := MaxConnections t; MaxPendingRequests := v;
     MaxRequests := MaxRequests t; MaxRetries := MaxRetries t |}.

Definition set_MaxRequests (t : CircuitBreakers_Thresholds)
    (v : option Z) : CircuitBreakers_Thresholds :=
  {| MaxConnections := MaxConnections t;
     MaxPendingRequests := MaxPendingRequests t;
     MaxRequests := v; MaxRetries := MaxRetries t |}.

Definition set_MaxRetries (t : CircuitBreakers_Thresholds)
    (v : option Z) : CircuitBreakers_Thresholds :=
  {| MaxConnections := MaxConnections t;
     MaxPendingRequests := MaxPendingRequests t;
     MaxRequests := MaxRequests t; MaxRetries := v |}.

Record CircuitBreakers : Type := {
  Thresholds : list CircuitBreakers_Thresholds
}.

Record OutlierDetection : Type := {
  Consecutive_5Xx : option Z;
  Interval : option types.Duration;
  BaseEjectionTime : option types.Duration;
  MaxEjectionPercent : option Z
}.
End v2_cluster.

(** ** Package [auth] *)
Module auth.
Record TlsCertificate : Type := {
  CertificateChain : option core.DataSource;
  PrivateKey : option core.DataSource
}.

Record CertificateValidationContext : Type := {
  TrustedCa : option core.DataSource;
  VerifySubjectAltName : list string
}.

Record CommonTlsContext : Type := {
  TlsCertificates : list TlsCertificate;
  ValidationContext : option CertificateValidationContext
}.

Record UpstreamTlsContext : Type := {
  CommonTlsContext_ : option CommonTlsContext;
  Sni : string
}.
End auth.

(** ** Package [v2]: the cluster record *)
Module v2.
Inductive Cluster_DiscoveryType : Type :=
| Cluster_STATIC
| Cluster_STRICT_DNS
| Cluster_LOGICAL_DNS
| Cluster_EDS
| Cluster_ORIGINAL_DST.

Inductive Cluster_LbPolicy : Type :=
| Cluster_ROUND_ROBIN
| Cluster_LEAST_REQUEST
| Cluster_RING_HASH
| Cluster_RANDOM
| Cluster_ORIGINAL_DST_LB
| Cluster_MAGLEV.

Record Cluster_EdsClusterConfig : Type := {
  EdsConfig : option core.ConfigSource;
  ServiceName : string
}.

Record Cluster : Type := {
  Name : string;
  Type_ : Cluster_DiscoveryType;
  EdsClusterConfig : option Cluster_EdsClusterConfig;
  ConnectTimeout : time.Duration;
  Hosts : list core.Address;
  LbPolicy : Cluster_LbPolicy;
  CircuitBreakers : option v2_cluster.CircuitBreakers;
  TlsContext : option auth.UpstreamTlsContext;
  MaxRequestsPerConnection : option Z;
  Http2ProtocolOptions : option core.Http2ProtocolOptions;
  OutlierDetection : option v2_cluster.OutlierDetection
}.

Definition DiscoveryType_eqb (a b : Cluster_DiscoveryType) : bool :=
  match a, b with
  | Cluster_STATIC, Cluster_STATIC
  | Cluster_STRICT_DNS, Cluster_STRICT_DNS
  | Cluster_LOGICAL_DNS, Cluster_LOGICAL_DNS
  | Cluster_EDS, Cluster_EDS
  | Cluster_ORIGINAL_DST, Cluster_ORIGINAL_DST => true
  | _, _ => false
  end.

(** Assignments to one field of a cluster. *)
Definition set_Type (c : Cluster) (v : Cluster_DiscoveryType) : Cluster :=
  {| Name := Name c; Type_ := v; EdsClusterConfig := EdsClusterConfig c;
     ConnectTimeout := ConnectTimeout c; Hosts := Hosts c;
     LbPolicy := LbPolicy c; CircuitBreakers := CircuitBreakers c;
     TlsContext := TlsContext c;
     MaxRequestsPerConnection := MaxRequestsPerConnection c;
     Http2ProtocolOptions := Http2ProtocolOptions c;
     OutlierDetection := OutlierDetection c |}.

Definition set_EdsClusterConfig (c : Cluster)
    (v : option Cluster_EdsClusterConfig) : Cluster :=
  {| Name := Name c; Type_ := Type_ c; EdsClusterConfig := v;
     ConnectTimeout := ConnectTimeout c; Hosts := Hosts c;
     LbPolicy := LbPolicy c; CircuitBreakers := CircuitBreakers c;
     TlsContext := TlsContext c;
     MaxRequestsPerConnection := MaxRequestsPerConnection c;
     Http2ProtocolOptions := Http2ProtocolOptions c;
     OutlierDetection := OutlierDetection c |}.

Definition set_ConnectTimeout (c : Cluster) (v : time.Duration) : Cluster :=
  {| Name := Name c; Type_ := Type_ c; EdsClusterConfig := EdsClusterConfig c;
     ConnectTimeout := v; Hosts := Hosts c;
     LbPolicy := LbPolicy c; CircuitBreakers := CircuitBreakers c;
     TlsContext := TlsContext c;
     MaxRequestsPerConnection := MaxRequestsPerConnection c;
     Http2ProtocolOptions := Http2ProtocolOptions c;
     OutlierDetection := OutlierDetection c |}.

Definition set_LbPolicy (c : Cluster) (v : Cluster_LbPolicy) : Cluster :=
  {| Name := Name c; Type_ := Type_ c; EdsClusterConfig := EdsClusterConfig c;
     ConnectTimeout := ConnectTimeout c; Hosts := Hosts c;
     LbPolicy := v; CircuitBreakers := CircuitBreakers c;
     TlsContext := TlsContext c;
     MaxRequestsPerConnection := MaxRequestsPerConnection c;
     Http2ProtocolOptions := Http2ProtocolOptions c;
     OutlierDetection := OutlierDetection c |}.

Definition set_CircuitBreakers (c : Cluster)
    (v : option v2_cluster.CircuitBreakers) : Cluster :=
  {| Name := Name c; Type_ := Type_ c; EdsClusterConfig := EdsClusterConfig c;
     ConnectTimeout := ConnectTimeout c; Hosts := Hosts c;
     LbPolicy := LbPolicy c; CircuitBreakers := v;
     TlsContext := TlsContext c;
     MaxRequestsPerConnection := MaxRequestsPerConnection c;
     Http2ProtocolOptions := Http2ProtocolOptions c;
     OutlierDetection := OutlierDetection c |}.

Definition set_TlsContext (c : Cluster)
    (v : option auth.UpstreamTlsContext) : Cluster :=
  {| Name := Name c; Type_ := Type_ c; EdsClusterConfig := EdsClusterConfig c;
     ConnectTimeout := ConnectTimeout c; Hosts := Hosts c;
     LbPolicy := LbPolicy c; CircuitBreakers := CircuitBreakers c;
     TlsContext := v;
     MaxRequestsPerConnection := MaxRequestsPerConnection c;
     Http2ProtocolOptions := Http2ProtocolOptions c;
     OutlierDetection := OutlierDetection c |}.

Definition set_MaxRequestsPerConnection (c : Cluster) (v : option Z)
    : Cluster :=
  {| Name := Name c; Type_ := Type_ c; EdsClusterConfig := EdsClusterConfig c;
     ConnectTimeout := ConnectTimeout c; Hosts := Hosts c;
     LbPolicy := LbPolicy c; CircuitBreakers := CircuitBreakers c;
     TlsContext := TlsContext c;
     MaxRequestsPerConnection := v;
     Http2ProtocolOptions := Http2ProtocolOptions c;
     OutlierDetection := OutlierDetection c |}.

Definition set_Http2ProtocolOptions (c : Cluster)
    (v : option core.Http2ProtocolOptions) : Cluster :=
  {| Name := Name c; Type_ := Type_ c; EdsClusterConfig := EdsClusterConfig c;
     ConnectTimeout := ConnectTimeout c; Hosts := Hosts c;
     LbPolicy := LbPolicy c; CircuitBreakers := CircuitBreakers c;
     TlsContext := TlsContext c;
     MaxRequestsPerConnection := MaxRequestsPerConnection c;
     Http2ProtocolOptions := v;
     OutlierDetection := OutlierDetection c |}.

Definition set_OutlierDetection (c : Cluster)
    (v : option v2_cluster.OutlierDetection) : Cluster :=
  {| Name := Name c; Type_ := Type_ c; EdsClusterConfig := EdsClusterConfig c;
     ConnectTimeout := ConnectTimeout c; Hosts := Hosts c;
     LbPolicy := LbPolicy c; CircuitBreakers := CircuitBreakers c;
     TlsContext := TlsContext c;
     MaxRequestsPerConnection := MaxRequestsPerConnection c;
     Http2ProtocolOptions := Http2ProtocolOptions c;
     OutlierDetection := v |}.
End v2.

(** ** Package [networking]: the user-authored traffic policy *)
Module networking.
Inductive LoadBalancerSettings_SimpleLB : Type :=
| LoadBalancerSettings_ROUND_ROBIN
| LoadBalancerSettings_LEAST_CONN
| LoadBalancerSettings_RANDOM
| LoadBalancerSettings_PASSTHROUGH.

(** The [lb_policy] oneof: a simple policy or a consistent-hash one (whose
    payload the cluster builder never reads). *)
Inductive isLoadBalancerSettings_LbPolicy : Type :=
| LoadBalancerSettings_Simple (Simple : LoadBalancerSettings_SimpleLB)
| LoadBalancerSettings_ConsistentHash.

Record LoadBalancerSettings : Type := {
  LbPolicy : option isLoadBalancerSettings_LbPolicy
}.

(** The generated getter: the simple policy when the oneof holds one, the
    enum's zero value otherwise. *)
Definition GetSimple (lb : LoadBalancerSettings)
    : LoadBalancerSettings_SimpleLB :=
  match LbPolicy lb with
  | Some (LoadBalancerSettings_Simple s) => s
  | _ => LoadBalancerSettings_ROUND_ROBIN
  end.

Record ConnectionPoolSettings_TCPSettings : Type := {
  MaxConnections : Z;
  ConnectTimeout : option types.Duration
}.

Record ConnectionPoolSettings_HTTPSettings : Type := {
  Http1MaxPendingRequests : Z;
  Http2MaxRequests : Z;
  MaxRequestsPerConnection : Z;
  MaxRetries : Z
}.

Record ConnectionPoolSettings : Type := {
  Tcp : option ConnectionPoolSettings_TCPSettings;
  Http : option ConnectionPoolSettings_HTTPSettings
}.

Record OutlierDetection_HTTPSettings : Type := {
  ConsecutiveErrors : Z;
  Interval : option types.Duration;
  BaseEjectionTime : option types.Duration;
  MaxEjectionPercent : Z
}.

Record OutlierDetection : Type := {
  OutlierDetection_Http : option OutlierDetection_HTTPSettings
}.

Inductive TLSSettings_TLSmode : Type :=
| TLSSettings_DISABLE
| TLSSettings_SIMPLE
| TLSSettings_MUTUAL.

Record TLSSettings : Type := {
  Mode : TLSSettings_TLSmode;
  ClientCertificate : string;
  PrivateKey : string;
  CaCertificates : string;
  SubjectAltNames : list string;
  Sni : string
}.

Record TrafficPolicy : Type := {
  LoadBalancer : option LoadBalancerSettings;
  ConnectionPool : option ConnectionPoolSettings;
  OutlierDetection_ : option OutlierDetection;
  Tls : option TLSSettings
}.

Record Subset : Type := {
  Subset_Name : string;
  Subset_TrafficPolicy : option TrafficPolicy
}.

Record DestinationRule : Type := {
  TrafficPolicy_ : option TrafficPolicy;
  Subsets : list Subset
}.
End networking.

(** ** Package [model]: services, proxies and the environment *)
Module model.
Inductive Protocol : Type :=
| ProtocolGRPC
| ProtocolHTTPS
| ProtocolHTTP2
| ProtocolHTTP
| ProtocolTCP
| ProtocolUDP
| ProtocolMongo
| ProtocolRedis
| ProtocolUnsupported.

Definition Protocol_eqb (a b : Protocol) : bool :=
  match a, b with
  | ProtocolGRPC, ProtocolGRPC | ProtocolHTTPS, ProtocolHTTPS
  | ProtocolHTTP2, ProtocolHTTP2 | ProtocolHTTP, ProtocolHTTP
  | ProtocolTCP, ProtocolTCP | ProtocolUDP, ProtocolUDP
  | ProtocolMongo, ProtocolMongo | ProtocolRedis, ProtocolRedis
  | ProtocolUnsupported, ProtocolUnsupported => true
  | _, _ => false
  end.

(** Modelled from the spec: [Protocol.IsHTTP] is declared outside this
    file; the spec sets HTTP/2 options for HTTP/2 and gRPC ports, the two
    protocols the code tests for inside the HTTP family (HTTP/1.1, HTTP/2,
    gRPC). *)
Definition IsHTTP (p : Protocol) : bool :=
  match p with
  | ProtocolHTTP | ProtocolHTTP2 | ProtocolGRPC => true
  | _ => false
  end.

Record Port : Type := {
  Name : string;
  Port_ : Z;
  Protocol_ : Protocol
}.

(** [Resolution] is an [int] enumeration; the values below are the three
    the code names, any other integer takes the [default] branch. *)
Definition Resolution : Type := Z.
Definition ClientSideLB : Resolution := 0.
Definition DNSLB : Resolution := 1.
Definition Passthrough : Resolution := 2.

Record Service : Type := {
  Hostname : string;
  Ports : list Port;
  Resolution_ : Resolution
}.

Record NetworkEndpoint : Type := {
  Address : string;
  Endpoint_Port : Z;
  ServicePort : Port
}.

Record ServiceInstance : Type := {
  Endpoint : NetworkEndpoint;
  Service_ : Service
}.

Inductive NodeType : Type := Sidecar | Ingress | Router.

Definition NodeType_eqb (a b : NodeType) : bool :=
  match a, b with
  | Sidecar, Sidecar | Ingress, Ingress | Router, Router => true
  | _, _ => false
  end.

Record Proxy : Type := {
  Type_ : NodeType;
  IPAddress : string
}.

Inductive TrafficDirection : Type :=
| TrafficDirectionInbound
| TrafficDirectionOutbound.

(** A configuration object of the store; the cluster builder only asks for
    destination rules, so the payload is one. *)
Record Config : Type := { Spec : networking.DestinationRule }.

Record MeshConfig : Type := {
  ConnectTimeout : types.Duration;
  RdsRefreshDelay : types.Duration
}.

(** A Go result [(value, error)]. *)
Inductive result (A : Type) : Type :=
| Ok (a : A)
| Err (e : string).
Arguments Ok {A} a.
Arguments Err {A} e.

Definition LabelsCollection : Type := list (list (string * string)).

(** The registry, seen as the answers it gives during one pass. *)
Record ServiceDiscovery : Type := {
  Services : result (list Service);
  Instances :
    string -> list string -> LabelsCollection -> result (list ServiceInstance);
  GetProxyServiceInstances : Proxy -> result (list ServiceInstance);
  ManagementPorts : string -> list Port
}.

Record IstioConfigStore : Type := {
  DestinationRule : string -> string -> option Config
}.

Record Environment : Type := {
  ServiceDiscovery_ : ServiceDiscovery;
  IstioConfigStore_ : IstioConfigStore;
  Mesh : MeshConfig
}.
End model.

(** ** Package [util] *)
Module util.
(** Modelled from the spec: [util.BuildAddress] is declared outside this
    file; an address is the pair of an IP and a port ("addressed at
    loopback + the instance's listening port"). *)
Definition BuildAddress (ip : string) (port : Z) : core.Address :=
  {| core.SocketAddress := ip; core.PortValue := port |}.
End util.

(** ** Functions imported from other packages of the repository

    The cluster builder calls three functions whose bodies live elsewhere.
    The development is parametric in them. *)
Class Imports : Type := {
  (** [model.BuildSubsetKey]: the name of a cluster. *)
  BuildSubsetKey :
    model.TrafficDirection -> string -> string -> model.Port -> string;
  (** [util.ConvertGogoDurationToDuration], at a non-nil argument. *)
  ConvertGogoDurationToDuration : types.Duration -> time.Duration;
  (** [authn.BuildJwksURIClustersForProxyInstances]. *)
  BuildJwksURIClustersForProxyInstances :
    model.MeshConfig -> model.IstioConfigStore ->
    list model.ServiceInstance -> list v2.Cluster
}.

(** ** Package [v1alpha3]: the cluster builder *)

(** [DefaultLbType] set to round robin. *)
Definition DefaultLbType : networking.LoadBalancerSettings_SimpleLB :=
  networking.LoadBalancerSettings_ROUND_ROBIN.

(** The hostname used for building inbound clusters for management ports. *)
Definition ManagementClusterHostname : string := "mgmtCluster".

(** Applied if no explicit policy is set. *)
Definition defaultClusterConnectTimeout : time.Duration := 5 * time.Second.

(** Name used for the xds cluster. *)
Definition xdsName : string := "xds-grpc".

Definition convertResolution (resolution : model.Resolution)
    : v2.Cluster_DiscoveryType :=
  if resolution =? model.ClientSideLB then v2.Cluster_EDS
  else if resolution =? model.DNSLB then v2.Cluster_STRICT_DNS
  else if resolution =? model.Passthrough then v2.Cluster_ORIGINAL_DST
  else v2.Cluster_EDS.

Definition setUpstreamProtocol (cluster : v2.Cluster) (port : model.Port)
    : v2.Cluster :=
  if model.IsHTTP (model.Protocol_ port) then
    if model.Protocol_eqb (model.Protocol_ port) model.ProtocolHTTP2
       || model.Protocol_eqb (model.Protocol_ port) model.ProtocolGRPC
    then v2.set_Http2ProtocolOptions cluster (Some (core.Build_Http2ProtocolOptions))
    else cluster
  else cluster.

Definition applyLoadBalancer (cluster : v2.Cluster)
    (lb : option networking.LoadBalancerSettings) : v2.Cluster :=
  match lb with
  | None => cluster
  | Some lb =>
    match networking.GetSimple lb with
    | networking.LoadBalancerSettings_LEAST_CONN =>
        v2.set_LbPolicy cluster v2.Cluster_LEAST_REQUEST
    | networking.LoadBalancerSettings_RANDOM =>
        v2.set_LbPolicy cluster v2.Cluster_RANDOM
    | networking.LoadBalancerSettings_ROUND_ROBIN =>
        v2.set_LbPolicy cluster v2.Cluster_ROUND_ROBIN
    | networking.LoadBalancerSettings_PASSTHROUGH =>
        let cluster := v2.set_LbPolicy cluster v2.Cluster_ORIGINAL_DST_LB in
        v2.set_Type cluster v2.Cluster_ORIGINAL_DST
    end
  end.

Definition applyOutlierDetection (cluster : v2.Cluster)
    (outlier : option networking.OutlierDetection) : v2.Cluster :=
  match outlier with
  | None => cluster
  | Some outlier =>
    match networking.OutlierDetection_Http outlier with
    | None => cluster
    | Some http =>
      let out :=
        {| v2_cluster.BaseEjectionTime := networking.BaseEjectionTime http;
           v2_cluster.Consecutive_5Xx :=
             if 0 <? networking.ConsecutiveErrors http
             then Some (uint32 (networking.ConsecutiveErrors http))
             else None;
           v2_cluster.Interval := networking.Interval http;
           v2_cluster.MaxEjectionPercent :=
             if 0 <? networking.MaxEjectionPercent http
             then Some (uint32 (networking.MaxEjectionPercent http))
             else None |} in
      v2.set_OutlierDetection cluster (Some out)
    end
  end.

Definition applyUpstreamTLSSettings (cluster : v2.Cluster)
    (tls : option networking.TLSSettings) : v2.Cluster :=
  match tls with
  | None => cluster
  | Some tls =>
    let validation :=
      {| auth.TrustedCa :=
           Some {| core.Filename := networking.CaCertificates tls |};
         auth.VerifySubjectAltName := networking.SubjectAltNames tls |} in
    match networking.Mode tls with
    | networking.TLSSettings_DISABLE => cluster
    | networking.TLSSettings_SIMPLE =>
        v2.set_TlsContext cluster (Some
          {| auth.CommonTlsContext_ := Some
               {| auth.TlsCertificates := [];
                  auth.ValidationContext := Some validation |};
             auth.Sni := networking.Sni tls |})
    | networking.TLSSettings_MUTUAL =>
        v2.set_TlsContext cluster (Some
          {| auth.CommonTlsContext_ := Some
               {| auth.TlsCertificates :=
                    [ {| auth.CertificateChain := Some
                           {| core.Filename := networking.ClientCertificate tls |};
                         auth.PrivateKey := Some
                           {| core.Filename := networking.PrivateKey tls |} |} ];
                  auth.ValidationContext := Some validation |};
             auth.Sni := networking.Sni tls |})
    end
  end.

Section Builder.
Context {imports : Imports}.

Definition applyConnectionPool (cluster : v2.Cluster)
    (settings : option networking.ConnectionPoolSettings) : v2.Cluster :=
  match settings with
  | None => cluster
  | Some settings =>
    let threshold :=
      {| v2_cluster.MaxConnections := None;
         v2_cluster.MaxPendingRequests := None;
         v2_cluster.MaxRequests := None;
         v2_cluster.MaxRetries := None |} in
    let '(threshold, cluster) :=
      match networking.Http settings with
      | None => (threshold, cluster)
      | Some http =>
        let threshold :=
          if 0 <? networking.Http2MaxRequests http
          then v2_cluster.set_MaxRequests threshold
                 (Some (uint32 (networking.Http2MaxRequests http)))
          else threshold in
        let threshold :=
          if 0 <? networking.Http1MaxPendingRequests http
          then v2_cluster.set_MaxPendingRequests threshold
                 (Some (uint32 (networking.Http1MaxPendingRequests http)))
          else threshold in
        let cluster :=
          if 0 <? networking.MaxRequestsPerConnection http
          then v2.set_MaxRequestsPerConnection cluster
                 (Some (uint32 (networking.MaxRequestsPerConnection http)))
          else cluster in
        let threshold :=
          if 0 <? networking.MaxRetries http
          then v2_cluster.set_MaxRetries threshold
                 (Some (uint32 (networking.MaxRetries http)))
          else threshold in
        (threshold, cluster)
      end in
    let '(threshold, cluster) :=
      match networking.Tcp settings with
      | None => (threshold, cluster)
      | Some tcp =>
        let cluster :=
          match networking.ConnectTimeout tcp with
          | Some d =>
              v2.set_ConnectTimeout cluster (ConvertGogoDurationToDuration d)
          | None => cluster
          end in
        let threshold :=
          if 0 <? networking.MaxConnections tcp
          then v2_cluster.set_MaxConnections threshold
                 (Some (uint32 (networking.MaxConnections tcp)))
          else threshold in
        (threshold, cluster)
      end in
    v2.set_CircuitBreakers cluster
      (Some {| v2_cluster.Thresholds := [threshold] |})
  end.

Definition applyTrafficPolicy (cluster : v2.Cluster)
    (policy : option networking.TrafficPolicy) : v2.Cluster :=
  match policy with
  | None => cluster
  | Some policy =>
    let cluster := applyConnectionPool cluster (networking.ConnectionPool policy) in
    let cluster := applyOutlierDetection cluster (networking.OutlierDetection_ policy) in
    let cluster := applyLoadBalancer cluster (networking.LoadBalancer policy) in
    applyUpstreamTLSSettings cluster (networking.Tls policy)
  end.

Definition buildDefaultTrafficPolicy (env : model.Environment)
    (discoveryType : v2.Cluster_DiscoveryType) : networking.TrafficPolicy :=
  let lbPolicy := DefaultLbType in
  let lbPolicy :=
    if v2.DiscoveryType_eqb discoveryType v2.Cluster_ORIGINAL_DST
    then networking.LoadBalancerSettings_PASSTHROUGH
    else lbPolicy in
  {| networking.LoadBalancer := Some
       {| networking.LbPolicy :=
            Some (networking.LoadBalancerSettings_Simple lbPolicy) |};
     networking.ConnectionPool := Some
       {| networking.Tcp := Some
            {| networking.MaxConnections := 0;
               networking.ConnectTimeout := Some
                 {| types.Seconds :=
                      types.Seconds (model.ConnectTimeout (model.Mesh env));
                    types.Nanos :=
                      types.Nanos (model.ConnectTimeout (model.Mesh env)) |} |};
          networking.Http := None |};
     networking.OutlierDetection_ := None;
     networking.Tls := None |}.

Definition buildDefaultCluster (env : model.Environment) (name : string)
    (discoveryType : v2.Cluster_DiscoveryType) (hosts : list core.Address)
    : v2.Cluster :=
  let cluster :=
    {| v2.Name := name;
       v2.Type_ := discoveryType;
       v2.EdsClusterConfig := None;
       v2.ConnectTimeout := 0;
       v2.Hosts := hosts;
       v2.LbPolicy := v2.Cluster_ROUND_ROBIN;
       v2.CircuitBreakers := None;
       v2.TlsContext := None;
       v2.MaxRequestsPerConnection := None;
       v2.Http2ProtocolOptions := None;
       v2.OutlierDetection := None |} in
  let defaultTrafficPolicy := buildDefaultTrafficPolicy env discoveryType in
  applyTrafficPolicy cluster (Some defaultTrafficPolicy).

Definition updateEds (env : model.Environment) (cluster : v2.Cluster)
    (serviceName : string) : v2.Cluster :=
  if negb (v2.DiscoveryType_eqb (v2.Type_ cluster) v2.Cluster_EDS)
  then cluster
  else
    let refresh :=
      time.mul (types.Seconds (model.RdsRefreshDelay (model.Mesh env)))
               time.Second in
    let refresh := if refresh =? 0 then 5 * time.Second else refresh in
    v2.set_EdsClusterConfig cluster (Some
      {| v2.ServiceName := v2.Name cluster;
         v2.EdsConfig := Some
           {| core.ConfigSourceSpecifier :=
                {| core.ApiType := core.ApiConfigSource_GRPC;
                   core.ClusterNames := [xdsName];
                   core.RefreshDelay := Some refresh |} |} |}).

Definition buildClusterHosts (env : model.Environment)
    (service : model.Service) (port : model.Port) : list core.Address :=
  if negb (model.Resolution_ service =? model.DNSLB) then []
  else
    match model.Instances (model.ServiceDiscovery_ env)
            (model.Hostname service) [model.Name port] [] with
    | model.Err _ => []
    | model.Ok instances =>
      fold_left
        (fun hosts instance =>
           let host :=
             util.BuildAddress
               (model.Address (model.Endpoint instance))
               (uint32 (model.Endpoint_Port (model.Endpoint instance))) in
           hosts ++ [host])
        instances []
    end.

Definition buildInboundClusters (env : model.Environment)
    (instances : list model.ServiceInstance)
    (managementPorts : list model.Port) : list v2.Cluster :=
  let clusters := [] in
  let clusters :=
    fold_left
      (fun clusters instance =>
         let clusterName :=
           BuildSubsetKey model.TrafficDirectionInbound EmptyString
             (model.Hostname (model.Service_ instance))
             (model.ServicePort (model.Endpoint instance)) in
         let address :=
           util.BuildAddress "127.0.0.1"
             (uint32 (model.Endpoint_Port (model.Endpoint instance))) in
         let localCluster :=
           buildDefaultCluster env clusterName v2.Cluster_STATIC [address] in
         let localCluster :=
           setUpstreamProtocol localCluster
             (model.ServicePort (model.Endpoint instance)) in
         clusters ++ [localCluster])
      instances clusters in
  fold_left
    (fun clusters port =>
       let clusterName :=
         BuildSubsetKey model.TrafficDirectionInbound EmptyString
           ManagementClusterHostname port in
       let address :=
         util.BuildAddress "127.0.0.1" (uint32 (model.Port_ port)) in
       let mgmtCluster :=
         buildDefaultCluster env clusterName v2.Cluster_STATIC [address] in
       let mgmtCluster := setUpstreamProtocol mgmtCluster port in
       clusters ++ [mgmtCluster])
    managementPorts clusters.
(** The default cluster is appended to the list before the rule's policy is
    applied to it; the list holds the pointer, so the emitted cluster is
    the one after the policy. *)
Definition buildOutboundClusters (env : model.Environment)
    (services : list model.Service) : list v2.Cluster :=
  fold_left
    (fun clusters service =>
       let config :=
         model.DestinationRule (model.IstioConfigStore_ env)
           (model.Hostname service) EmptyString in
       fold_left
         (fun clusters port =>
            let hosts := buildClusterHosts env service port in
            let clusterName :=
              BuildSubsetKey model.TrafficDirectionOutbound EmptyString
                (model.Hostname service) port in
            let defaultCluster :=
              buildDefaultCluster env clusterName
                (convertResolution (model.Resolution_ service)) hosts in
            let defaultCluster :=
              updateEds env defaultCluster (model.Hostname service) in
            let defaultCluster := setUpstreamProtocol defaultCluster port in
            match config with
            | None => clusters ++ [defaultCluster]
            | Some config =>
              let destinationRule := model.Spec config in
              let defaultCluster :=
                applyTrafficPolicy defaultCluster
                  (networking.TrafficPolicy_ destinationRule) in
              let clusters := clusters ++ [defaultCluster] in
              fold_left
                (fun clusters subset =>
                   let subsetClusterName :=
                     BuildSubsetKey model.TrafficDirectionOutbound
                       (networking.Subset_Name subset)
                       (model.Hostname service) port in
                   let subsetCluster :=
                     buildDefaultCluster env subsetClusterName
                       (convertResolution (model.Resolution_ service))
                       hosts in
                   let subsetCluster :=
                     updateEds env subsetCluster (model.Hostname service) in
                   let subsetCluster :=
                     setUpstreamProtocol subsetCluster port in
                   let subsetCluster :=
                     applyTrafficPolicy subsetCluster
                       (networking.TrafficPolicy_ destinationRule) in
                   let subsetCluster :=
                     applyTrafficPolicy subsetCluster
                       (networking.Subset_TrafficPolicy subset) in
                   clusters ++ [subsetCluster])
                (networking.Subsets destinationRule) clusters
            end)
         (model.Ports service) clusters)
    services [].

(** [BuildClusters] returns the list of clusters for the given proxy;
    [None] is the [nil] it returns when a registry query fails. *)
Definition BuildClusters (env : model.Environment) (proxy : model.Proxy)
    : option (list v2.Cluster) :=
  let clusters := [] in
  match model.Services (model.ServiceDiscovery_ env) with
  | model.Err _ => None
  | model.Ok services =>
    let clusters := clusters ++ buildOutboundClusters env services in
    let clusters :=
      map (fun c =>
             (* Envoy requires a non-zero connect timeout *)
             if v2.ConnectTimeout c =? 0
             then v2.set_ConnectTimeout c defaultClusterConnectTimeout
             else c)
          clusters in
    if model.NodeType_eqb (model.Type_ proxy) model.Sidecar then
      match model.GetProxyServiceInstances (model.ServiceDiscovery_ env) proxy with
      | model.Err _ => None
      | model.Ok instances =>
        let managementPorts :=
          model.ManagementPorts (model.ServiceDiscovery_ env)
            (model.IPAddress proxy) in
        let clusters :=
          clusters ++ buildInboundClusters env instances managementPorts in
        let clusters :=
          clusters ++
          BuildJwksURIClustersForProxyInstances (model.Mesh env)
            (model.IstioConfigStore_ env) instances in
        Some clusters
      end
    else Some clusters
  end.
End Builder.

(** ** A concrete instance of the imported functions

    Used to run the builder on examples. *)

(** Modelled from the spec: [util.ConvertGogoDurationToDuration] is declared
    outside this file; the spec carries a policy's connect timeout over to
    the cluster unchanged, so the conversion is the duration's length in
    nanoseconds. *)
Definition gogoDurationNanos (d : types.Duration) : time.Duration :=
  types.Seconds d * time.Second + types.Nanos d.

Definition directionName (d : model.TrafficDirection) : string :=
  match d with
  | model.TrafficDirectionInbound => "inbound"
  | model.TrafficDirectionOutbound => "outbound"
  end.

(** Modelled from the spec: [model.BuildSubsetKey] is declared outside this
    file; the spec derives a cluster's name from direction, subset, hostname
    and port, which this name joins. *)
Definition subsetKey (direction : model.TrafficDirection)
    (subsetName hostname : string) (port : model.Port) : string :=
  (directionName direction ++ "|" ++ model.Name port ++ "|" ++ subsetName
   ++ "|" ++ hostname)%string.

(** Modelled from the spec: [authn.BuildJwksURIClustersForProxyInstances] is
    declared outside this file; the spec appends its clusters as they are.
    In the examples no instance asks for JWT authentication and the list is
    empty. *)
Definition noJwksClusters (_ : model.MeshConfig) (_ : model.IstioConfigStore)
    (_ : list model.ServiceInstance) : list v2.Cluster := [].

Definition exampleImports : Imports :=
  {| BuildSubsetKey := subsetKey;
     ConvertGogoDurationToDuration := gogoDurationNanos;
     BuildJwksURIClustersForProxyInstances := noJwksClusters |}.

(** ** The outbound list, cluster by cluster

    [buildOutboundClusters] appends, for every port of every service, the
    default cluster and then one cluster per subset.  The functions below
    name these clusters; [buildOutboundClusters_flat_map] shows that the
    loops of the source produce exactly them, in this order. *)
Section Outbound.
Context {imports : Imports}.

(** The cluster of a (service, port, subset name) before any user policy. *)
Definition baselineCluster (env : model.Environment)
    (service : model.Service) (port : model.Port) (subsetName : string)
    : v2.Cluster :=
  setUpstreamProtocol
    (updateEds env
       (buildDefaultCluster env
          (BuildSubsetKey model.TrafficDirectionOutbound subsetName
             (model.Hostname service) port)
          (convertResolution (model.Resolution_ service))
          (buildClusterHosts env service port))
       (model.Hostname service))
    port.

Definition subsetClusterOf (env : model.Environment)
    (service : model.Service) (port : model.Port)
    (destinationRule : networking.DestinationRule)
    (subset : networking.Subset) : v2.Cluster :=
  applyTrafficPolicy
    (applyTrafficPolicy
       (baselineCluster env service port (networking.Subset_Name subset))
       (networking.TrafficPolicy_ destinationRule))
    (networking.Subset_TrafficPolicy subset).

Definition portClusters (env : model.Environment)
    (service : model.Service) (port : model.Port) : list v2.Cluster :=
  match model.DestinationRule (model.IstioConfigStore_ env)
          (model.Hostname service) EmptyString with
  | None => [baselineCluster env service port EmptyString]
  | Some config =>
    applyTrafficPolicy (baselineCluster env service port EmptyString)
      (networking.TrafficPolicy_ (model.Spec config))
    :: map (subsetClusterOf env service port (model.Spec config))
           (networking.Subsets (model.Spec config))
  end.

Definition serviceClusters (env : model.Environment)
    (service : model.Service) : list v2.Cluster :=
  flat_map (portClusters env service) (model.Ports service).

(** The connect-timeout pass of [BuildClusters]. *)
Definition fixConnectTimeout (c : v2.Cluster) : v2.Cluster :=
  if v2.ConnectTimeout c =? 0
  then v2.set_ConnectTimeout c defaultClusterConnectTimeout
  else c.
End Outbound.

(** The thresholds record that [applyConnectionPool] assembles, as a function
    of the settings alone: a field is set when its source is strictly
    positive and its block is present. *)
Definition positive32 (x : Z) : option Z :=
  if 0 <? x then Some (uint32 x) else None.

Definition poolThresholds (settings : networking.ConnectionPoolSettings)
    : v2_cluster.CircuitBreakers_Thresholds :=
  {| v2_cluster.MaxConnections :=
       match networking.Tcp settings with
       | Some tcp => positive32 (networking.MaxConnections tcp)
       | None => None
       end;
     v2_cluster.MaxPendingRequests :=
       match networking.Http settings with
       | Some http => positive32 (networking.Http1MaxPendingRequests http)
       | None => None
       end;
     v2_cluster.MaxRequests :=
       match networking.Http settings with
       | Some http => positive32 (networking.Http2MaxRequests http)
       | None => None
       end;
     v2_cluster.MaxRetries :=
       match networking.Http settings with
       | Some http => positive32 (networking.MaxRetries http)
       | None => None
       end |}.

(** The thresholds record with every field unset. *)
Definition emptyThresholds : v2_cluster.CircuitBreakers_Thresholds :=
  {| v2_cluster.MaxConnections := None;
     v2_cluster.MaxPendingRequests := None;
     v2_cluster.MaxRequests := None;
     v2_cluster.MaxRetries := None |}.

(** ** Predicates on clusters *)

(** The cluster carries an EDS linkage block. *)
Definition hasEdsLinkage (c : v2.Cluster) : Prop :=
  v2.EdsClusterConfig c <> None.

(** The invariant "discovery type is EDS iff an EDS linkage is carried". *)
Definition edsIffLinkage (c : v2.Cluster) : Prop :=
  v2.Type_ c = v2.Cluster_EDS <-> hasEdsLinkage c.

(** The circuit-breakers block is present and holds one thresholds record. *)
Definition oneThresholds (c : v2.Cluster) : Prop :=
  exists t, v2.CircuitBreakers c = Some {| v2_cluster.Thresholds := [t] |}.

(** The refresh delay of the EDS linkage of a cluster, when there is one. *)
Definition edsRefreshDelay (c : v2.Cluster) : option time.Duration :=
  match v2.EdsClusterConfig c with
  | Some eds =>
    match v2.EdsConfig eds with
    | Some source => core.RefreshDelay (core.ConfigSourceSpecifier source)
    | None => None
    end
  | None => None
  end.

(** A linkage, if carried, has a refresh delay and it is not zero. *)
Definition linkageRefreshNonZero (c : v2.Cluster) : Prop :=
  forall eds, v2.EdsClusterConfig c = Some eds ->
  exists r, edsRefreshDelay c = Some r /\ r <> 0.

(** The reading of a Tcp connect timeout under which only a strictly
    positive value overrides the cluster's timeout and a zero or absent one
    keeps it, for one cluster and one settings value. *)
Definition zeroTimeoutKeepsPrevious {imports : Imports} (c : v2.Cluster)
    (settings : networking.ConnectionPoolSettings) : Prop :=
  forall tcp, networking.Tcp settings = Some tcp ->
  let c' := applyConnectionPool c (Some settings) in
  (forall d, networking.ConnectTimeout tcp = Some d ->
             0 < gogoDurationNanos d ->
             v2.ConnectTimeout c' = ConvertGogoDurationToDuration d) /\
  (forall d, networking.ConnectTimeout tcp = Some d ->
             gogoDurationNanos d = 0 ->
             v2.ConnectTimeout c' = v2.ConnectTimeout c) /\
  (networking.ConnectTimeout tcp = None ->
   v2.ConnectTimeout c' = v2.ConnectTimeout c).



(** The host list of an inbound cluster: loopback and a port. *)
Definition loopback (port : Z) : list core.Address :=
  [util.BuildAddress "127.0.0.1" port].

(** A port number that [uint32] represents as it is. *)
Definition portInRange (p : Z) : Prop := 0 <= p < 2 ^ 32.

(** ** Example inputs *)
Module Examples.
Definition second (n : Z) : types.Duration :=
  {| types.Seconds := n; types.Nanos := 0 |}.

Definition mesh : model.MeshConfig :=
  {| model.ConnectTimeout := second 1; model.RdsRefreshDelay := second 10 |}.

(** A mesh whose default connect timeout is zero. *)
Definition meshZeroTimeout : model.MeshConfig :=
  {| model.ConnectTimeout := second 0; model.RdsRefreshDelay := second 10 |}.


Definition http80 : model.Port :=
  {| model.Name := "http"; model.Port_ := 80;
     model.Protocol_ := model.ProtocolHTTP |}.

Definition mgmt15020 : model.Port :=
  {| model.Name := "mgmt"; model.Port_ := 15020;
     model.Protocol_ := model.ProtocolHTTP |}.

Definition reviews (resolution : model.Resolution) : model.Service :=
  {| model.Hostname := "reviews.default.svc";
     model.Ports := [http80];
     model.Resolution_ := resolution |}.

Definition instanceOn (port : Z) : model.ServiceInstance :=
  {| model.Endpoint :=
       {| model.Address := "10.0.0.1"; model.Endpoint_Port := port;
          model.ServicePort := http80 |};
     model.Service_ := reviews model.ClientSideLB |}.

Definition lbOnly (lb : networking.LoadBalancerSettings_SimpleLB)
    : networking.TrafficPolicy :=
  {| networking.LoadBalancer := Some
       {| networking.LbPolicy :=
            Some (networking.LoadBalancerSettings_Simple lb) |};
     networking.ConnectionPool := None;
     networking.OutlierDetection_ := None;
     networking.Tls := None |}.


Definition tcpMaxConnections (n : Z)
    : networking.ConnectionPoolSettings_TCPSettings :=
  {| networking.MaxConnections := n; networking.ConnectTimeout := None |}.

(** Rule level: ten connections and an Http block. *)
Definition rulePool : networking.ConnectionPoolSettings :=
  {| networking.Tcp := Some (tcpMaxConnections 10);
     networking.Http := Some
       {| networking.Http1MaxPendingRequests := 64;
          networking.Http2MaxRequests := 128;
          networking.MaxRequestsPerConnection := 4;
          networking.MaxRetries := 2 |} |}.

(** Subset level: twenty connections, no Http block. *)
Definition subsetPool : networking.ConnectionPoolSettings :=
  {| networking.Tcp := Some (tcpMaxConnections 20);
     networking.Http := None |}.

(** A pool whose Tcp block carries a connect timeout of zero. *)
Definition zeroTimeoutPool : networking.ConnectionPoolSettings :=
  {| networking.Tcp := Some
       {| networking.MaxConnections := 0;
          networking.ConnectTimeout := Some (second 0) |};
     networking.Http := None |}.

(** A pool whose Tcp block carries a connect timeout of three seconds. *)
Definition threeSecondPool : networking.ConnectionPoolSettings :=
  {| networking.Tcp := Some
       {| networking.MaxConnections := 0;
          networking.ConnectTimeout := Some (second 3) |};
     networking.Http := None |}.

Definition passthroughRule : networking.DestinationRule :=
  {| networking.TrafficPolicy_ :=
       Some (lbOnly networking.LoadBalancerSettings_PASSTHROUGH);
     networking.Subsets := [] |}.

Definition registry (services : model.result (list model.Service))
    (instances : list model.ServiceInstance) (mgmt : list model.Port)
    : model.ServiceDiscovery :=
  {| model.Services := services;
     model.Instances := fun _ _ _ => model.Ok [];
     model.GetProxyServiceInstances := fun _ => model.Ok instances;
     model.ManagementPorts := fun _ => mgmt |}.

Definition store (rule : option networking.DestinationRule)
    : model.IstioConfigStore :=
  {| model.DestinationRule := fun _ _ =>
       match rule with
       | Some r => Some {| model.Spec := r |}
       | None => None
       end |}.

(** One client-side-load-balanced service under a passthrough rule. *)
Definition envPassthroughOnEds : model.Environment :=
  {| model.ServiceDiscovery_ :=
       registry (model.Ok [reviews model.ClientSideLB]) [] [];
     model.IstioConfigStore_ := store (Some passthroughRule);
     model.Mesh := mesh |}.

(** One DNS-load-balanced service under a passthrough rule. *)
Definition envPassthroughOnDns : model.Environment :=
  {| model.ServiceDiscovery_ :=
       registry (model.Ok [reviews model.DNSLB]) [] [];
     model.IstioConfigStore_ := store (Some passthroughRule);
     model.Mesh := mesh |}.

(** No service, one local instance, a mesh connect timeout of zero. *)
Definition envZeroTimeout : model.Environment :=
  {| model.ServiceDiscovery_ := registry (model.Ok []) [instanceOn 8080] [];
     model.IstioConfigStore_ := store None;
     model.Mesh := meshZeroTimeout |}.

(** A registry whose service list query fails. *)
Definition envRegistryDown : model.Environment :=
  {| model.ServiceDiscovery_ :=
       registry (model.Err "registry unavailable") [instanceOn 8080] [];
     model.IstioConfigStore_ := store None;
     model.Mesh := mesh |}.


Definition grpc90 : model.Port :=
  {| model.Name := "grpc"; model.Port_ := 90;
     model.Protocol_ := model.ProtocolGRPC |}.

(** A rule with no policy of its own and one subset, v2, balanced at
    random. *)
Definition v2RandomRule : networking.DestinationRule :=
  {| networking.TrafficPolicy_ := None;
     networking.Subsets :=
       [ {| networking.Subset_Name := "v2";
            networking.Subset_TrafficPolicy :=
              Some (lbOnly networking.LoadBalancerSettings_RANDOM) |} ] |}.

(** One client-side-load-balanced service with an HTTP and a gRPC port. *)
Definition envReviewsV2 : model.Environment :=
  {| model.ServiceDiscovery_ :=
       registry
         (model.Ok [ {| model.Hostname := "reviews.default.svc";
                        model.Ports := [http80; grpc90];
                        model.Resolution_ := model.ClientSideLB |} ])
         [] [];
     model.IstioConfigStore_ := store (Some v2RandomRule);
     model.Mesh := mesh |}.

(** What the examples look at in a cluster: name, discovery type, load
    balancer, whether HTTP/2 options are set, connect timeout. *)
Definition summary (c : v2.Cluster)
    : string * v2.Cluster_DiscoveryType * v2.Cluster_LbPolicy * bool * Z :=
  (v2.Name c, v2.Type_ c, v2.LbPolicy c,
   match v2.Http2ProtocolOptions c with Some _ => true | None => false end,
   v2.ConnectTimeout c).

Definition sidecar : model.Proxy :=
  {| model.Type_ := model.Sidecar; model.IPAddress := "10.0.0.1" |}.

Definition router : model.Proxy :=
  {| model.Type_ := model.Router; model.IPAddress := "10.0.0.2" |}.

(** A cluster with no policy applied and a connect timeout of 7s. *)
Definition sevenSecondCluster : v2.Cluster :=
  {| v2.Name := "outbound|http||reviews.default.svc";
     v2.Type_ := v2.Cluster_EDS;
     v2.EdsClusterConfig := None;
     v2.ConnectTimeout := 7 * time.Second;
     v2.Hosts := [];
     v2.LbPolicy := v2.Cluster_ROUND_ROBIN;
     v2.CircuitBreakers := None;
     v2.TlsContext := None;
     v2.MaxRequestsPerConnection := None;
     v2.Http2ProtocolOptions := None;
     v2.OutlierDetection := None |}.
End Examples.

(** ** What a policy block writes, in closed form

    Each of the four steps of [applyTrafficPolicy] assigns a value computed
    from its block.  The functions below name these values; the theorems of
    the last part show that the steps of the source assign exactly them. *)

(** The proxy's algorithm for a simple load-balancer policy. *)
Definition simpleLbPolicy (s : networking.LoadBalancerSettings_SimpleLB)
    : v2.Cluster_LbPolicy :=
  match s with
  | networking.LoadBalancerSettings_ROUND_ROBIN => v2.Cluster_ROUND_ROBIN
  | networking.LoadBalancerSettings_LEAST_CONN => v2.Cluster_LEAST_REQUEST
  | networking.LoadBalancerSettings_RANDOM => v2.Cluster_RANDOM
  | networking.LoadBalancerSettings_PASSTHROUGH => v2.Cluster_ORIGINAL_DST_LB
  end.

(** The outlier-detection block built from an Http sub-block. *)
Definition outlierBlock (http : networking.OutlierDetection_HTTPSettings)
    : v2_cluster.OutlierDetection :=
  {| v2_cluster.Consecutive_5Xx :=
       positive32 (networking.ConsecutiveErrors http);
     v2_cluster.Interval := networking.Interval http;
     v2_cluster.BaseEjectionTime := networking.BaseEjectionTime http;
     v2_cluster.MaxEjectionPercent :=
       positive32 (networking.MaxEjectionPercent http) |}.

(** The validation context both TLS modes build. *)
Definition validationContext (tls : networking.TLSSettings)
    : auth.CertificateValidationContext :=
  {| auth.TrustedCa :=
       Some {| core.Filename := networking.CaCertificates tls |};
     auth.VerifySubjectAltName := networking.SubjectAltNames tls |}.

(** The client certificate of mutual TLS. *)
Definition clientCertificate (tls : networking.TLSSettings)
    : auth.TlsCertificate :=
  {| auth.CertificateChain :=
       Some {| core.Filename := networking.ClientCertificate tls |};
     auth.PrivateKey :=
       Some {| core.Filename := networking.PrivateKey tls |} |}.

(** The upstream TLS context of a settings value whose mode is not DISABLE:
    the client certificate is there in mutual mode only. *)
Definition tlsContextOf (tls : networking.TLSSettings)
    : auth.UpstreamTlsContext :=
  {| auth.CommonTlsContext_ := Some
       {| auth.TlsCertificates :=
            match networking.Mode tls with
            | networking.TLSSettings_MUTUAL => [clientCertificate tls]
            | _ => []
            end;
          auth.ValidationContext := Some (validationContext tls) |};
     auth.Sni := networking.Sni tls |}.

(** The connect timeout a policy carries, if any. *)
Definition policyConnectTimeout (policy : option networking.TrafficPolicy)
    : option types.Duration :=
  match policy with
  | Some p =>
    match networking.ConnectionPool p with
    | Some settings =>
      match networking.Tcp settings with
      | Some tcp => networking.ConnectTimeout tcp
      | None => None
      end
    | None => None
    end
  | None => None
  end.


(** The names of the clusters of one port of a service, in the order of the
    outbound list: the default cluster, then the subsets of the rule. *)
Definition portClusterNames {imports : Imports} (env : model.Environment)
    (service : model.Service) (port : model.Port) : list string :=
  BuildSubsetKey model.TrafficDirectionOutbound EmptyString
    (model.Hostname service) port
  :: match model.DestinationRule (model.IstioConfigStore_ env)
             (model.Hostname service) EmptyString with
     | None => []
     | Some config =>
       map (fun subset =>
              BuildSubsetKey model.TrafficDirectionOutbound
                (networking.Subset_Name subset) (model.Hostname service) port)
           (networking.Subsets (model.Spec config))
     end.

(** The number of subsets of the rule of a service, zero without a rule. *)
Definition subsetCount (env : model.Environment) (service : model.Service)
    : nat :=
  match model.DestinationRule (model.IstioConfigStore_ env)
          (model.Hostname service) EmptyString with
  | None => 0%nat
  | Some config => List.length (networking.Subsets (model.Spec config))
  end.

(** The addresses of the instances of a DNS-load-balanced service. *)
Definition instanceAddress (instance : model.ServiceInstance) : core.Address :=
  util.BuildAddress (model.Address (model.Endpoint instance))
    (uint32 (model.Endpoint_Port (model.Endpoint instance))).

(** ** Further predicates on clusters *)

(** The discovery types the outbound builder can produce. *)
Definition outboundDiscoveryType (c : v2.Cluster) : Prop :=
  v2.Type_ c = v2.Cluster_EDS \/
  v2.Type_ c = v2.Cluster_STRICT_DNS \/
  v2.Type_ c = v2.Cluster_ORIGINAL_DST.

(** The load balancer is one of the four the builder knows, and the
    original-destination balancer comes with the ORIGINAL_DST type only. *)
Definition lbPolicyWellFormed (c : v2.Cluster) : Prop :=
  v2.LbPolicy c <> v2.Cluster_RING_HASH /\
  v2.LbPolicy c <> v2.Cluster_MAGLEV /\
  (v2.LbPolicy c = v2.Cluster_ORIGINAL_DST_LB ->
   v2.Type_ c = v2.Cluster_ORIGINAL_DST).

(** A linkage, if carried, names the cluster itself as the service and the
    xds cluster, over gRPC, as the source. *)
Definition linkageNamesCluster (c : v2.Cluster) : Prop :=
  forall eds, v2.EdsClusterConfig c = Some eds ->
  v2.ServiceName eds = v2.Name c /\
  exists r,
    v2.EdsConfig eds = Some
      {| core.ConfigSourceSpecifier :=
           {| core.ApiType := core.ApiConfigSource_GRPC;
              core.ClusterNames := [xdsName];
              core.RefreshDelay := Some r |} |}.

(** No user policy has left a trace on the cluster. *)
Definition plainCluster (c : v2.Cluster) : Prop :=
  v2.TlsContext c = None /\
  v2.OutlierDetection c = None /\
  v2.MaxRequestsPerConnection c = None /\
  v2.CircuitBreakers c
  = Some {| v2_cluster.Thresholds := [emptyThresholds] |}.

(** The product [seconds * time.Second] fits in an [int64]. *)
Definition secondsInRange (seconds : Z) : Prop :=
  - 2 ^ 63 <= seconds * time.Second < 2 ^ 63.

(** A 32-bit signed integer that is strictly positive. *)
Definition positiveInt32 (x : Z) : Prop := 0 < x < 2 ^ 31.

(** ** Further example inputs *)
Module MoreExamples.
Definition mutualTls : networking.TLSSettings :=
  {| networking.Mode := networking.TLSSettings_MUTUAL;
     networking.ClientCertificate := "/etc/certs/cert-chain.pem";
     networking.PrivateKey := "/etc/certs/key.pem";
     networking.CaCertificates := "/etc/certs/root-cert.pem";
     networking.SubjectAltNames := ["spiffe://cluster.local/ns/default/sa/reviews"];
     networking.Sni := "reviews.default.svc" |}.

Definition disableTls : networking.TLSSettings :=
  {| networking.Mode := networking.TLSSettings_DISABLE;
     networking.ClientCertificate := EmptyString;
     networking.PrivateKey := EmptyString;
     networking.CaCertificates := EmptyString;
     networking.SubjectAltNames := [];
     networking.Sni := EmptyString |}.

Definition tlsOnly (tls : networking.TLSSettings) : networking.TrafficPolicy :=
  {| networking.LoadBalancer := None;
     networking.ConnectionPool := None;
     networking.OutlierDetection_ := None;
     networking.Tls := Some tls |}.

(** A load-balancer block whose oneof holds a consistent-hash policy. *)
Definition consistentHashPolicy : networking.TrafficPolicy :=
  {| networking.LoadBalancer := Some
       {| networking.LbPolicy :=
            Some networking.LoadBalancerSettings_ConsistentHash |};
     networking.ConnectionPool := None;
     networking.OutlierDetection_ := None;
     networking.Tls := None |}.

Definition outlierHttp : networking.OutlierDetection_HTTPSettings :=
  {| networking.ConsecutiveErrors := 5;
     networking.Interval := Some (Examples.second 10);
     networking.BaseEjectionTime := Some (Examples.second 30);
     networking.MaxEjectionPercent := 0 |}.

Definition outlierOnly : networking.TrafficPolicy :=
  {| networking.LoadBalancer := None;
     networking.ConnectionPool := None;
     networking.OutlierDetection_ := Some
       {| networking.OutlierDetection_Http := Some outlierHttp |};
     networking.Tls := None |}.

(** A cluster balanced at random, secured with mutual TLS. *)
Definition securedCluster : v2.Cluster :=
  {| v2.Name := "outbound|http||reviews.default.svc";
     v2.Type_ := v2.Cluster_EDS;
     v2.EdsClusterConfig := None;
     v2.ConnectTimeout := 7 * time.Second;
     v2.Hosts := [];
     v2.LbPolicy := v2.Cluster_RANDOM;
     v2.CircuitBreakers := None;
     v2.TlsContext := Some (tlsContextOf mutualTls);
     v2.MaxRequestsPerConnection := Some 4;
     v2.Http2ProtocolOptions := None;
     v2.OutlierDetection := Some (outlierBlock outlierHttp) |}.

Definition dnsInstance (address : string) (port : Z)
    : model.ServiceInstance :=
  {| model.Endpoint :=
       {| model.Address := address; model.Endpoint_Port := port;
          model.ServicePort := Examples.http80 |};
     model.Service_ := Examples.reviews model.DNSLB |}.

(** A registry that knows two instances of every service and fails to list
    the instances of a proxy. *)
Definition registryWithInstances : model.ServiceDiscovery :=
  {| model.Services := model.Ok [Examples.reviews model.DNSLB];
     model.Instances := fun _ _ _ =>
       model.Ok [dnsInstance "10.0.0.1" 8080; dnsInstance "10.0.0.2" 8080];
     model.GetProxyServiceInstances := fun _ =>
       model.Err "no such proxy";
     model.ManagementPorts := fun _ => [] |}.

Definition envDns : model.Environment :=
  {| model.ServiceDiscovery_ := registryWithInstances;
     model.IstioConfigStore_ := Examples.store None;
     model.Mesh := Examples.mesh |}.

(** A registry whose instance query fails. *)
Definition envDnsDown : model.Environment :=
  {| model.ServiceDiscovery_ :=
       {| model.Services := model.Ok [Examples.reviews model.DNSLB];
          model.Instances := fun _ _ _ => model.Err "registry unavailable";
          model.GetProxyServiceInstances := fun _ => model.Ok [];
          model.ManagementPorts := fun _ => [] |};
     model.IstioConfigStore_ := Examples.store None;
     model.Mesh := Examples.mesh |}.

(** One service, one local instance, one management port. *)
Definition envSidecar : model.Environment :=
  {| model.ServiceDiscovery_ :=
       Examples.registry (model.Ok [Examples.reviews model.ClientSideLB])
         [Examples.instanceOn 8080] [Examples.mgmt15020];
     model.IstioConfigStore_ := Examples.store (Some Examples.v2RandomRule);
     model.Mesh := Examples.mesh |}.

(** A mesh whose refresh setting is three seconds. *)
Definition envThreeSecondRefresh : model.Environment :=
  {| model.ServiceDiscovery_ :=
       Examples.registry (model.Ok [Examples.reviews model.ClientSideLB])
         [] [];
     model.IstioConfigStore_ := Examples.store None;
     model.Mesh :=
       {| model.ConnectTimeout := Examples.second 1;
          model.RdsRefreshDelay := Examples.second 3 |} |}.
End MoreExamples.

(** * Properties *)

(** ** Running the builder *)

(** Two ports and one subset give four clusters, the subset's behind the
    default of each port; the subset clusters are balanced at random, the
    gRPC port's clusters carry HTTP/2 options. *)
Example BuildClusters_reviews_v2 :
  option_map (map Examples.summary)
    (@BuildClusters exampleImports Examples.envReviewsV2 Examples.router)
  = Some
      [ ("outbound|http||reviews.default.svc",
         v2.Cluster_EDS, v2.Cluster_ROUND_ROBIN, false, 1000000000);
        ("outbound|http|v2|reviews.default.svc",
         v2.Cluster_EDS, v2.Cluster_RANDOM, false, 1000000000);
        ("outbound|grpc||reviews.default.svc",
         v2.Cluster_EDS, v2.Cluster_ROUND_ROBIN, true, 1000000000);
        ("outbound|grpc|v2|reviews.default.svc",
         v2.Cluster_EDS, v2.Cluster_RANDOM, true, 1000000000) ].
Proof. reflexivity. Qed.

Example convertResolution_values :
  map convertResolution [model.ClientSideLB; model.DNSLB; model.Passthrough; 7]
  = [v2.Cluster_EDS; v2.Cluster_STRICT_DNS; v2.Cluster_ORIGINAL_DST;
     v2.Cluster_EDS].
Proof. reflexivity. Qed.

(** The refresh delay wraps around like the [int64] product it is. *)
Example refresh_wraps_to_zero :
  time.mul (2 ^ 55) time.Second = 0.
Proof. reflexivity. Qed.

(** ** Lists built by appending in a loop *)

Lemma fold_left_append (A B : Type) (step : list B -> A -> list B)
    (g : A -> list B) :
  (forall acc x, step acc x = acc ++ g x) ->
  forall l acc, fold_left step l acc = acc ++ flat_map g l.
Proof.
  intros Hstep l.
  induction l as [| x l IH]; intros acc; simpl.
  - symmetry. apply app_nil_r.
  - rewrite IH, Hstep. symmetry. apply app_assoc.
Qed.

Lemma flat_map_single (A B : Type) (f : A -> B) (l : list A) :
  flat_map (fun x => [f x]) l = map f l.
Proof.
  induction l as [| x l IH]; simpl; [reflexivity | now rewrite IH].
Qed.

Lemma fold_left_snoc (A B : Type) (f : A -> B) (l : list A) (acc : list B) :
  fold_left (fun acc x => acc ++ [f x]) l acc = acc ++ map f l.
Proof.
  rewrite (fold_left_append _ (fun x => [f x])) by reflexivity.
  now rewrite flat_map_single.
Qed.

(** ** Machine integers *)

Lemma uint32_small (x : Z) : 0 <= x < 2 ^ 32 -> uint32 x = x.
Proof. intros H. unfold uint32. now apply Z.mod_small. Qed.

Lemma wrap64_small (x : Z) : - 2 ^ 63 <= x < 2 ^ 63 -> wrap64 x = x.
Proof.
  intros H. unfold wrap64.
  rewrite Z.mod_small by lia. lia.
Qed.

(** ** Which fields a step of the policy engine touches *)

Ltac split_cases :=
  repeat match goal with
         | |- context [if ?b then _ else _] => destruct b
         | |- context [match ?x with _ => _ end] => destruct x
         end.

Section Fields.
Context {imports : Imports}.

Lemma applyConnectionPool_CircuitBreakers c settings :
  v2.CircuitBreakers (applyConnectionPool c (Some settings))
  = Some {| v2_cluster.Thresholds := [poolThresholds settings] |}.
Proof.
  destruct settings as [tcp http].
  unfold applyConnectionPool, poolThresholds, positive32; simpl.
  destruct http as [h |]; destruct tcp as [t |]; simpl; split_cases;
    reflexivity.
Qed.

Lemma applyConnectionPool_Type c settings :
  v2.Type_ (applyConnectionPool c settings) = v2.Type_ c.
Proof.
  destruct settings as [[tcp http] |]; [| reflexivity].
  unfold applyConnectionPool; simpl.
  destruct http as [h |]; destruct tcp as [t |]; simpl; split_cases;
    reflexivity.
Qed.

Lemma applyConnectionPool_EdsClusterConfig c settings :
  v2.EdsClusterConfig (applyConnectionPool c settings) = v2.EdsClusterConfig c.
Proof.
  destruct settings as [[tcp http] |]; [| reflexivity].
  unfold applyConnectionPool; simpl.
  destruct http as [h |]; destruct tcp as [t |]; simpl; split_cases;
    reflexivity.
Qed.

Lemma applyConnectionPool_Hosts c settings :
  v2.Hosts (applyConnectionPool c settings) = v2.Hosts c.
Proof.
  destruct settings as [[tcp http] |]; [| reflexivity].
  unfold applyConnectionPool; simpl.
  destruct http as [h |]; destruct tcp as [t |]; simpl; split_cases;
    reflexivity.
Qed.

Lemma applyConnectionPool_ConnectTimeout c settings :
  v2.ConnectTimeout (applyConnectionPool c (Some settings))
  = match networking.Tcp settings with
    | Some tcp =>
      match networking.ConnectTimeout tcp with
      | Some d => ConvertGogoDurationToDuration d
      | None => v2.ConnectTimeout c
      end
    | None => v2.ConnectTimeout c
    end.
Proof.
  destruct settings as [tcp http].
  unfold applyConnectionPool; simpl.
  destruct http as [h |]; destruct tcp as [[n [d |]] |]; simpl; split_cases;
    reflexivity.
Qed.

Lemma applyOutlierDetection_fields c outlier :
  let c' := applyOutlierDetection c outlier in
  v2.Type_ c' = v2.Type_ c /\
  v2.EdsClusterConfig c' = v2.EdsClusterConfig c /\
  v2.CircuitBreakers c' = v2.CircuitBreakers c /\
  v2.ConnectTimeout c' = v2.ConnectTimeout c /\
  v2.LbPolicy c' = v2.LbPolicy c /\
  v2.Hosts c' = v2.Hosts c.
Proof.
  unfold applyOutlierDetection.
  destruct outlier as [[[h |]] |]; simpl; repeat split; reflexivity.
Qed.

Lemma applyLoadBalancer_fields c lb :
  let c' := applyLoadBalancer c lb in
  v2.EdsClusterConfig c' = v2.EdsClusterConfig c /\
  v2.CircuitBreakers c' = v2.CircuitBreakers c /\
  v2.ConnectTimeout c' = v2.ConnectTimeout c /\
  v2.Hosts c' = v2.Hosts c.
Proof.
  unfold applyLoadBalancer.
  destruct lb as [lb |]; simpl; [| repeat split; reflexivity].
  destruct (networking.GetSimple lb); simpl; repeat split; reflexivity.
Qed.

Lemma applyLoadBalancer_Type c lb :
  v2.Type_ (applyLoadBalancer c lb)
  = match lb with
    | Some lb =>
      match networking.GetSimple lb with
      | networking.LoadBalancerSettings_PASSTHROUGH => v2.Cluster_ORIGINAL_DST
      | _ => v2.Type_ c
      end
    | None => v2.Type_ c
    end.
Proof.
  unfold applyLoadBalancer.
  destruct lb as [lb |]; simpl; [| reflexivity].
  destruct (networking.GetSimple lb); reflexivity.
Qed.

Lemma applyUpstreamTLSSettings_fields c tls :
  let c' := applyUpstreamTLSSettings c tls in
  v2.Type_ c' = v2.Type_ c /\
  v2.EdsClusterConfig c' = v2.EdsClusterConfig c /\
  v2.CircuitBreakers c' = v2.CircuitBreakers c /\
  v2.ConnectTimeout c' = v2.ConnectTimeout c /\
  v2.LbPolicy c' = v2.LbPolicy c /\
  v2.Hosts c' = v2.Hosts c.
Proof.
  unfold applyUpstreamTLSSettings.
  destruct tls as [tls |]; simpl; [| repeat split; reflexivity].
  destruct (networking.Mode tls); simpl; repeat split; reflexivity.
Qed.

Lemma setUpstreamProtocol_fields c port :
  let c' := setUpstreamProtocol c port in
  v2.Type_ c' = v2.Type_ c /\
  v2.EdsClusterConfig c' = v2.EdsClusterConfig c /\
  v2.CircuitBreakers c' = v2.CircuitBreakers c /\
  v2.ConnectTimeout c' = v2.ConnectTimeout c /\
  v2.LbPolicy c' = v2.LbPolicy c /\
  v2.Hosts c' = v2.Hosts c.
Proof.
  unfold setUpstreamProtocol.
  split_cases; simpl; repeat split; reflexivity.
Qed.

Lemma updateEds_fields env c serviceName :
  let c' := updateEds env c serviceName in
  v2.Type_ c' = v2.Type_ c /\
  v2.CircuitBreakers c' = v2.CircuitBreakers c /\
  v2.ConnectTimeout c' = v2.ConnectTimeout c /\
  v2.LbPolicy c' = v2.LbPolicy c /\
  v2.Hosts c' = v2.Hosts c.
Proof.
  unfold updateEds.
  destruct (negb _); simpl; repeat split; reflexivity.
Qed.

End Fields.

(** ** One application of a traffic policy *)

Ltac use_fields L :=
  let H := fresh "H" in
  pose proof L as H; cbv zeta in H; decompose [and] H; clear H.

Section Policy.
Context {imports : Imports}.

Lemma applyTrafficPolicy_Some_fields c p :
  let c' := applyTrafficPolicy c (Some p) in
  let pooled := applyConnectionPool c (networking.ConnectionPool p) in
  v2.EdsClusterConfig c' = v2.EdsClusterConfig c /\
  v2.Hosts c' = v2.Hosts c /\
  v2.CircuitBreakers c' = v2.CircuitBreakers pooled /\
  v2.ConnectTimeout c' = v2.ConnectTimeout pooled /\
  v2.Type_ c'
  = match networking.LoadBalancer p with
    | Some lb =>
      match networking.GetSimple lb with
      | networking.LoadBalancerSettings_PASSTHROUGH => v2.Cluster_ORIGINAL_DST
      | _ => v2.Type_ c
      end
    | None => v2.Type_ c
    end.
Proof.
  cbv zeta. unfold applyTrafficPolicy.
  set (cp := networking.ConnectionPool p).
  set (od := networking.OutlierDetection_ p).
  set (lb := networking.LoadBalancer p).
  set (tls := networking.Tls p).
  use_fields (applyUpstreamTLSSettings_fields
                (applyLoadBalancer
                   (applyOutlierDetection (applyConnectionPool c cp) od) lb)
                tls).
  use_fields (applyLoadBalancer_fields
                (applyOutlierDetection (applyConnectionPool c cp) od) lb).
  use_fields (applyOutlierDetection_fields (applyConnectionPool c cp) od).
  pose proof (applyLoadBalancer_Type
                (applyOutlierDetection (applyConnectionPool c cp) od) lb)
    as HT.
  pose proof (applyConnectionPool_Type c cp) as HT0.
  pose proof (applyConnectionPool_EdsClusterConfig c cp).
  pose proof (applyConnectionPool_Hosts c cp).
  repeat split; try congruence.
  destruct lb as [l |]; [destruct (networking.GetSimple l) |]; congruence.
Qed.

Lemma applyTrafficPolicy_EdsClusterConfig c policy :
  v2.EdsClusterConfig (applyTrafficPolicy c policy) = v2.EdsClusterConfig c.
Proof.
  destruct policy as [p |]; [| reflexivity].
  apply (applyTrafficPolicy_Some_fields c p).
Qed.

Lemma applyTrafficPolicy_Hosts c policy :
  v2.Hosts (applyTrafficPolicy c policy) = v2.Hosts c.
Proof.
  destruct policy as [p |]; [| reflexivity].
  apply (applyTrafficPolicy_Some_fields c p).
Qed.

(** A policy either keeps the discovery type or forces ORIGINAL_DST. *)
Lemma applyTrafficPolicy_Type c policy :
  v2.Type_ (applyTrafficPolicy c policy) = v2.Type_ c \/
  v2.Type_ (applyTrafficPolicy c policy) = v2.Cluster_ORIGINAL_DST.
Proof.
  destruct policy as [p |]; [| now left].
  use_fields (applyTrafficPolicy_Some_fields c p).
  destruct (networking.LoadBalancer p) as [l |];
    [destruct (networking.GetSimple l) |]; auto.
Qed.

Lemma applyTrafficPolicy_keeps_ORIGINAL_DST c policy :
  v2.Type_ c = v2.Cluster_ORIGINAL_DST ->
  v2.Type_ (applyTrafficPolicy c policy) = v2.Cluster_ORIGINAL_DST.
Proof.
  intros H. destruct (applyTrafficPolicy_Type c policy); congruence.
Qed.

Lemma applyTrafficPolicy_oneThresholds c policy :
  oneThresholds c -> oneThresholds (applyTrafficPolicy c policy).
Proof.
  intros Hc. destruct policy as [p |]; [| exact Hc].
  use_fields (applyTrafficPolicy_Some_fields c p).
  unfold oneThresholds.
  destruct (networking.ConnectionPool p) as [s |] eqn:E.
  - exists (poolThresholds s).
    rewrite <- (applyConnectionPool_CircuitBreakers c s). congruence.
  - destruct Hc as [t Ht]. exists t. simpl in *. congruence.
Qed.

(** ** The baseline cluster *)

Lemma buildDefaultCluster_fields env name discoveryType hosts :
  let c := buildDefaultCluster env name discoveryType hosts in
  v2.Name c = name /\
  v2.Type_ c = discoveryType /\
  v2.Hosts c = hosts /\
  v2.EdsClusterConfig c = None /\
  v2.CircuitBreakers c
  = Some {| v2_cluster.Thresholds := [emptyThresholds] |} /\
  v2.ConnectTimeout c
  = ConvertGogoDurationToDuration (model.ConnectTimeout (model.Mesh env)).
Proof.
  destruct env as [sd store [[s n] refresh]].
  destruct discoveryType; cbv -[ConvertGogoDurationToDuration];
    repeat split; reflexivity.
Qed.

Lemma updateEds_EDS env c serviceName :
  v2.Type_ c = v2.Cluster_EDS ->
  exists r,
    edsRefreshDelay (updateEds env c serviceName) = Some r /\
    r <> 0 /\
    r = (let refresh :=
           time.mul (types.Seconds (model.RdsRefreshDelay (model.Mesh env)))
                    time.Second in
         if refresh =? 0 then 5 * time.Second else refresh) /\
    hasEdsLinkage (updateEds env c serviceName).
Proof.
  intros HT. unfold updateEds, edsRefreshDelay, hasEdsLinkage.
  rewrite HT. simpl.
  eexists; split; [reflexivity |].
  split; [| split; [reflexivity | discriminate]].
  destruct (Z.eqb_spec
              (time.mul (types.Seconds (model.RdsRefreshDelay (model.Mesh env)))
                        time.Second) 0) as [E | E].
  - discriminate.
  - exact E.
Qed.

Lemma updateEds_not_EDS env c serviceName :
  v2.Type_ c <> v2.Cluster_EDS -> updateEds env c serviceName = c.
Proof.
  intros HT. unfold updateEds.
  destruct (v2.Type_ c); try reflexivity. now elim HT.
Qed.

End Policy.

(** ** The loops of the outbound builder *)

Section OutboundList.
Context {imports : Imports}.

Lemma buildOutboundClusters_flat_map env services :
  buildOutboundClusters env services = flat_map (serviceClusters env) services.
Proof.
  unfold buildOutboundClusters.
  rewrite (fold_left_append _ (serviceClusters env)); [reflexivity |].
  intros acc service. unfold serviceClusters.
  apply fold_left_append. intros acc' port.
  unfold portClusters.
  destruct (model.DestinationRule (model.IstioConfigStore_ env)
              (model.Hostname service) EmptyString) as [config |]; [| reflexivity].
  rewrite (fold_left_append _
             (fun subset =>
                [subsetClusterOf env service port (model.Spec config) subset]))
    by reflexivity.
  rewrite flat_map_single, <- app_assoc. reflexivity.
Qed.

(** A property of every baseline cluster that every policy preserves holds
    of every outbound cluster. *)
Lemma buildOutboundClusters_Forall env (P : v2.Cluster -> Prop) :
  (forall service port name, P (baselineCluster env service port name)) ->
  (forall c policy, P c -> P (applyTrafficPolicy c policy)) ->
  forall services, Forall P (buildOutboundClusters env services).
Proof.
  intros Hbase Hstep services.
  rewrite buildOutboundClusters_flat_map.
  apply Forall_flat_map, Forall_forall. intros service _.
  unfold serviceClusters.
  apply Forall_flat_map, Forall_forall. intros port _.
  unfold portClusters.
  destruct (model.DestinationRule _ _ _) as [config |].
  - constructor; [now apply Hstep |].
    apply Forall_map, Forall_forall. intros subset _.
    unfold subsetClusterOf. now do 2 apply Hstep.
  - constructor; [apply Hbase | constructor].
Qed.

Lemma buildInboundClusters_map env instances managementPorts :
  buildInboundClusters env instances managementPorts
  = map (fun instance =>
           setUpstreamProtocol
             (buildDefaultCluster env
                (BuildSubsetKey model.TrafficDirectionInbound EmptyString
                   (model.Hostname (model.Service_ instance))
                   (model.ServicePort (model.Endpoint instance)))
                v2.Cluster_STATIC
                (loopback (uint32 (model.Endpoint_Port (model.Endpoint instance)))))
             (model.ServicePort (model.Endpoint instance)))
        instances
    ++ map (fun port =>
              setUpstreamProtocol
                (buildDefaultCluster env
                   (BuildSubsetKey model.TrafficDirectionInbound EmptyString
                      ManagementClusterHostname port)
                   v2.Cluster_STATIC
                   (loopback (uint32 (model.Port_ port))))
                port)
           managementPorts.
Proof.
  unfold buildInboundClusters.
  now rewrite !fold_left_snoc.
Qed.

End OutboundList.

(** ** EDS linkage and discovery type *)

Section Linkage.
Context {imports : Imports}.

Lemma baselineCluster_Type env service port name :
  v2.Type_ (baselineCluster env service port name)
  = convertResolution (model.Resolution_ service).
Proof.
  unfold baselineCluster.
  use_fields (setUpstreamProtocol_fields
                (updateEds env
                   (buildDefaultCluster env
                      (BuildSubsetKey model.TrafficDirectionOutbound name
                         (model.Hostname service) port)
                      (convertResolution (model.Resolution_ service))
                      (buildClusterHosts env service port))
                   (model.Hostname service)) port).
  use_fields (updateEds_fields env
                (buildDefaultCluster env
                   (BuildSubsetKey model.TrafficDirectionOutbound name
                      (model.Hostname service) port)
                   (convertResolution (model.Resolution_ service))
                   (buildClusterHosts env service port))
                (model.Hostname service)).
  use_fields (buildDefaultCluster_fields env
                (BuildSubsetKey model.TrafficDirectionOutbound name
                   (model.Hostname service) port)
                (convertResolution (model.Resolution_ service))
                (buildClusterHosts env service port)).
  congruence.
Qed.

(** Before any user policy, a cluster is of type EDS exactly when it carries
    the linkage, and the linkage's refresh delay is not zero. *)
Lemma baselineCluster_linkage env service port name :
  edsIffLinkage (baselineCluster env service port name) /\
  linkageRefreshNonZero (baselineCluster env service port name).
Proof.
  unfold baselineCluster.
  set (d := buildDefaultCluster env _ _ _).
  set (host := model.Hostname service).
  destruct (buildDefaultCluster_fields env
              (BuildSubsetKey model.TrafficDirectionOutbound name host port)
              (convertResolution (model.Resolution_ service))
              (buildClusterHosts env service port))
    as (_ & _ & _ & HdE & _).
  change (v2.EdsClusterConfig d = None) in HdE.
  destruct (setUpstreamProtocol_fields (updateEds env d host) port)
    as (HsT & HsE & _).
  destruct (updateEds_fields env d host) as (HuT & _).
  unfold edsIffLinkage, linkageRefreshNonZero, hasEdsLinkage, edsRefreshDelay.
  rewrite HsT, HsE, HuT.
  destruct (v2.DiscoveryType_eqb (v2.Type_ d) v2.Cluster_EDS) eqn:E.
  - assert (HE : v2.Type_ d = v2.Cluster_EDS)
      by (destruct (v2.Type_ d); try discriminate E; reflexivity).
    destruct (updateEds_EDS env d host HE) as (r & Hr & Hnz & _ & Hl).
    unfold edsRefreshDelay in Hr. unfold hasEdsLinkage in Hl.
    split; [split; intros _; [exact Hl | exact HE] |].
    intros eds _. exists r. split; [exact Hr | exact Hnz].
  - assert (HE : v2.Type_ d <> v2.Cluster_EDS)
      by (intros HE; rewrite HE in E; discriminate E).
    rewrite (updateEds_not_EDS env d host HE), HdE.
    split; [split; [intros HT; now elim HE | intros HN; now elim HN] |].
    intros eds Heds. discriminate Heds.
Qed.

(** What survives user policy: an EDS cluster carries the linkage, and a
    cluster carrying the linkage is of type EDS or ORIGINAL_DST. *)
Lemma buildOutboundClusters_linkage env services :
  Forall (fun c =>
            (v2.Type_ c = v2.Cluster_EDS -> hasEdsLinkage c) /\
            (hasEdsLinkage c ->
             v2.Type_ c = v2.Cluster_EDS \/
             v2.Type_ c = v2.Cluster_ORIGINAL_DST))
         (buildOutboundClusters env services).
Proof.
  apply buildOutboundClusters_Forall.
  - intros service port name.
    destruct (baselineCluster_linkage env service port name) as [[H1 H2] _].
    split; [exact H1 | intros H; left; now apply H2].
  - intros c policy [H1 H2].
    unfold hasEdsLinkage in *.
    rewrite applyTrafficPolicy_EdsClusterConfig.
    destruct (applyTrafficPolicy_Type c policy) as [E | E]; rewrite E.
    + split; assumption.
    + split; [discriminate | intros _; now right].
Qed.


End Linkage.

(** C1, where the code departs from it: for a client-side-load-balanced
    service whose destination rule sets LoadBalancer = passthrough,
    [BuildClusters] emits a cluster whose discovery type is ORIGINAL_DST and
    which still carries the EDS linkage attached by [updateEds]; "EDS if and
    only if linkage" does not hold of that cluster. *)
Theorem BuildClusters_passthrough_leaves_stale_linkage :
  exists clusters c,
    @BuildClusters exampleImports Examples.envPassthroughOnEds Examples.router
    = Some clusters /\
    In c clusters /\
    v2.Type_ c = v2.Cluster_ORIGINAL_DST /\
    hasEdsLinkage c /\
    ~ edsIffLinkage c.
Proof.
  eexists. eexists.
  split; [vm_compute; reflexivity |].
  split; [left; reflexivity |].
  split; [reflexivity |].
  match goal with
  | |- hasEdsLinkage ?c /\ _ =>
    assert (HL : hasEdsLinkage c) by (vm_compute; discriminate)
  end.
  split; [exact HL |].
  intros [_ H]. specialize (H HL). discriminate H.
Qed.

(** ** Connect timeouts *)

Section Timeouts.
Context {imports : Imports}.

Lemma fixConnectTimeout_non_zero c :
  v2.ConnectTimeout (fixConnectTimeout c) <> 0.
Proof.
  unfold fixConnectTimeout.
  destruct (Z.eqb_spec (v2.ConnectTimeout c) 0) as [E | E]; simpl.
  - discriminate.
  - exact E.
Qed.

(** The pass over the outbound clusters does what it is there for: a proxy
    that is not a sidecar receives no cluster with a zero connect timeout. *)
Lemma BuildClusters_not_sidecar_non_zero env proxy clusters :
  model.Type_ proxy <> model.Sidecar ->
  BuildClusters env proxy = Some clusters ->
  Forall (fun c => v2.ConnectTimeout c <> 0) clusters.
Proof.
  intros Hp. unfold BuildClusters.
  destruct (model.Services (model.ServiceDiscovery_ env)) as [services | e];
    [| discriminate].
  destruct (model.Type_ proxy); [now elim Hp | |];
    simpl; intros H; injection H as <-;
    apply Forall_map, Forall_forall; intros c _;
    apply (fixConnectTimeout_non_zero c).
Qed.

(** An inbound cluster takes its connect timeout from the mesh default, and
    nothing else looks at it afterwards. *)
Lemma buildInboundClusters_ConnectTimeout env instances managementPorts :
  Forall (fun c =>
            v2.ConnectTimeout c
            = ConvertGogoDurationToDuration
                (model.ConnectTimeout (model.Mesh env)))
         (buildInboundClusters env instances managementPorts).
Proof.
  rewrite buildInboundClusters_map.
  apply Forall_app; split; apply Forall_map, Forall_forall; intros x _.
  - destruct (setUpstreamProtocol_fields
                (buildDefaultCluster env
                   (BuildSubsetKey model.TrafficDirectionInbound EmptyString
                      (model.Hostname (model.Service_ x))
                      (model.ServicePort (model.Endpoint x)))
                   v2.Cluster_STATIC
                   (loopback (uint32 (model.Endpoint_Port (model.Endpoint x)))))
                (model.ServicePort (model.Endpoint x)))
      as (_ & _ & _ & -> & _).
    apply buildDefaultCluster_fields.
  - destruct (setUpstreamProtocol_fields
                (buildDefaultCluster env
                   (BuildSubsetKey model.TrafficDirectionInbound EmptyString
                      ManagementClusterHostname x)
                   v2.Cluster_STATIC
                   (loopback (uint32 (model.Port_ x))))
                x)
      as (_ & _ & _ & -> & _).
    apply buildDefaultCluster_fields.
Qed.

(** The list a sidecar receives: the outbound clusters after the pass, then
    the inbound clusters and the JWKS clusters as they were built. *)
Lemma BuildClusters_sidecar env proxy services instances :
  model.Type_ proxy = model.Sidecar ->
  model.Services (model.ServiceDiscovery_ env) = model.Ok services ->
  model.GetProxyServiceInstances (model.ServiceDiscovery_ env) proxy
  = model.Ok instances ->
  BuildClusters env proxy
  = Some (map fixConnectTimeout (buildOutboundClusters env services)
          ++ buildInboundClusters env instances
               (model.ManagementPorts (model.ServiceDiscovery_ env)
                  (model.IPAddress proxy))
          ++ BuildJwksURIClustersForProxyInstances (model.Mesh env)
               (model.IstioConfigStore_ env) instances).
Proof.
  intros Hp Hs Hi. unfold BuildClusters.
  rewrite Hs, Hp, Hi. simpl. now rewrite <- app_assoc.
Qed.

End Timeouts.

(** C2, where the code departs from it: the pass that replaces a zero
    connect timeout runs over the outbound clusters only, before the inbound
    clusters are appended.  With a mesh-wide connect timeout of zero, a
    sidecar with one local instance receives an inbound cluster whose connect
    timeout is zero. *)
Theorem BuildClusters_inbound_cluster_with_zero_timeout :
  exists clusters c,
    @BuildClusters exampleImports Examples.envZeroTimeout Examples.sidecar
    = Some clusters /\
    In c clusters /\
    v2.Type_ c = v2.Cluster_STATIC /\
    v2.ConnectTimeout c = 0.
Proof.
  eexists. eexists.
  split; [vm_compute; reflexivity |].
  split; [left; reflexivity |].
  split; reflexivity.
Qed.

(** C3 as stated fails: a Tcp block whose connect timeout is present and
    zero, applied to a cluster whose connect timeout is 7s, sets the timeout
    to zero instead of keeping 7s. *)
Lemma applyConnectionPool_zero_timeout_overrides :
  ~ @zeroTimeoutKeepsPrevious exampleImports
      Examples.sevenSecondCluster Examples.zeroTimeoutPool.
Proof.
  intros H.
  destruct (H _ eq_refl) as (_ & Hzero & _).
  specialize (Hzero (Examples.second 0) eq_refl eq_refl).
  vm_compute in Hzero. discriminate Hzero.
Qed.

(** C3, amended: for every cluster and every settings value with a Tcp
    block, a connect timeout that is present (non-nil) overwrites the
    cluster's connect timeout with its converted value, whatever that value
    is (a present zero sets zero); only an absent connect timeout leaves the
    cluster's previous connect timeout unchanged. *)
Theorem applyConnectionPool_tcp_connect_timeout
    (imports : Imports) (c : v2.Cluster)
    (settings : networking.ConnectionPoolSettings)
    (tcp : networking.ConnectionPoolSettings_TCPSettings) :
  networking.Tcp settings = Some tcp ->
  (forall d, networking.ConnectTimeout tcp = Some d ->
             v2.ConnectTimeout (applyConnectionPool c (Some settings))
             = ConvertGogoDurationToDuration d) /\
  (networking.ConnectTimeout tcp = None ->
   v2.ConnectTimeout (applyConnectionPool c (Some settings))
   = v2.ConnectTimeout c).
Proof.
  intros Htcp.
  rewrite applyConnectionPool_ConnectTimeout, Htcp.
  split.
  - intros d Hd. now rewrite Hd.
  - intros Hd. now rewrite Hd.
Qed.

(** A present timeout of 3s replaces 7s by 3s; a present timeout of zero
    replaces 7s by zero. *)
Lemma applyConnectionPool_tcp_connect_timeout_witness :
  networking.Tcp Examples.threeSecondPool
  = Some {| networking.MaxConnections := 0;
            networking.ConnectTimeout := Some (Examples.second 3) |} /\
  v2.ConnectTimeout
    (@applyConnectionPool exampleImports Examples.sevenSecondCluster
       (Some Examples.threeSecondPool))
  = 3 * time.Second /\
  v2.ConnectTimeout
    (@applyConnectionPool exampleImports Examples.sevenSecondCluster
       (Some Examples.zeroTimeoutPool))
  = 0.
Proof.
  split; [reflexivity |].
  split.
  - exact (proj1 (applyConnectionPool_tcp_connect_timeout exampleImports
                    Examples.sevenSecondCluster Examples.threeSecondPool
                    eq_refl)
             (Examples.second 3) eq_refl).
  - exact (proj1 (applyConnectionPool_tcp_connect_timeout exampleImports
                    Examples.sevenSecondCluster Examples.zeroTimeoutPool
                    eq_refl)
             (Examples.second 0) eq_refl).
Defined.

(** ** The passthrough override *)

Section Passthrough.
Context {imports : Imports}.

Lemma applyTrafficPolicy_passthrough c p lb :
  networking.LoadBalancer p = Some lb ->
  networking.GetSimple lb = networking.LoadBalancerSettings_PASSTHROUGH ->
  v2.LbPolicy (applyTrafficPolicy c (Some p)) = v2.Cluster_ORIGINAL_DST_LB /\
  v2.Type_ (applyTrafficPolicy c (Some p)) = v2.Cluster_ORIGINAL_DST.
Proof.
  intros Hlb Hs. split.
  - unfold applyTrafficPolicy.
    destruct (applyUpstreamTLSSettings_fields
                (applyLoadBalancer
                   (applyOutlierDetection
                      (applyConnectionPool c (networking.ConnectionPool p))
                      (networking.OutlierDetection_ p))
                   (networking.LoadBalancer p))
                (networking.Tls p))
      as (_ & _ & _ & _ & -> & _).
    rewrite Hlb. unfold applyLoadBalancer. rewrite Hs. reflexivity.
  - destruct (applyTrafficPolicy_Some_fields c p) as (_ & _ & _ & _ & ->).
    now rewrite Hlb, Hs.
Qed.

(** The linkage attached by [updateEds] outlives a passthrough policy. *)
Lemma passthrough_after_updateEds env c serviceName p lb :
  v2.Type_ c = v2.Cluster_EDS ->
  networking.LoadBalancer p = Some lb ->
  networking.GetSimple lb = networking.LoadBalancerSettings_PASSTHROUGH ->
  v2.Type_ (applyTrafficPolicy (updateEds env c serviceName) (Some p))
  = v2.Cluster_ORIGINAL_DST /\
  hasEdsLinkage (applyTrafficPolicy (updateEds env c serviceName) (Some p)).
Proof.
  intros HT Hlb Hs. split.
  - now apply applyTrafficPolicy_passthrough with lb.
  - unfold hasEdsLinkage. rewrite applyTrafficPolicy_EdsClusterConfig.
    destruct (updateEds_EDS env c serviceName HT) as (r & _ & _ & _ & Hl).
    exact Hl.
Qed.

End Passthrough.

(** C4: applying a traffic policy whose LoadBalancer simple policy is
    passthrough sets the load-balancing policy to original-destination and
    the discovery type to ORIGINAL_DST, for every cluster; a cluster of a
    DNS-load-balanced service, of type STRICT_DNS before the policy, is of
    type ORIGINAL_DST after it; and every cluster the outbound builder emits
    for a service under such a rule-level policy is of type ORIGINAL_DST. *)
Theorem applyTrafficPolicy_passthrough_forces_ORIGINAL_DST
    (imports : Imports) (p : networking.TrafficPolicy)
    (lb : networking.LoadBalancerSettings) :
  networking.LoadBalancer p = Some lb ->
  networking.GetSimple lb = networking.LoadBalancerSettings_PASSTHROUGH ->
  (forall c,
     v2.LbPolicy (applyTrafficPolicy c (Some p)) = v2.Cluster_ORIGINAL_DST_LB /\
     v2.Type_ (applyTrafficPolicy c (Some p)) = v2.Cluster_ORIGINAL_DST) /\
  (forall env service port name,
     model.Resolution_ service = model.DNSLB ->
     v2.Type_ (baselineCluster env service port name) = v2.Cluster_STRICT_DNS /\
     v2.Type_ (applyTrafficPolicy (baselineCluster env service port name)
                 (Some p))
     = v2.Cluster_ORIGINAL_DST) /\
  (forall env service config,
     model.DestinationRule (model.IstioConfigStore_ env)
       (model.Hostname service) EmptyString = Some config ->
     networking.TrafficPolicy_ (model.Spec config) = Some p ->
     Forall (fun c => v2.Type_ c = v2.Cluster_ORIGINAL_DST)
            (buildOutboundClusters env [service])).
Proof.
  intros Hlb Hs.
  split; [intros c; now apply applyTrafficPolicy_passthrough with lb |].
  split.
  - intros env service port name Hres. split.
    + rewrite baselineCluster_Type, Hres. reflexivity.
    + now apply applyTrafficPolicy_passthrough with lb.
  - intros env service config Hrule Hpol.
    rewrite buildOutboundClusters_flat_map. simpl. rewrite app_nil_r.
    unfold serviceClusters.
    apply Forall_flat_map, Forall_forall. intros port _.
    unfold portClusters. rewrite Hrule, Hpol.
    constructor.
    + now apply applyTrafficPolicy_passthrough with lb.
    + apply Forall_map, Forall_forall. intros subset _.
      unfold subsetClusterOf. rewrite Hpol.
      apply applyTrafficPolicy_keeps_ORIGINAL_DST.
      now apply applyTrafficPolicy_passthrough with lb.
Qed.

(** A DNS-load-balanced service under a passthrough rule: its one cluster is
    of type ORIGINAL_DST. *)
Lemma applyTrafficPolicy_passthrough_forces_ORIGINAL_DST_witness :
  networking.GetSimple
    {| networking.LbPolicy :=
         Some (networking.LoadBalancerSettings_Simple
                 networking.LoadBalancerSettings_PASSTHROUGH) |}
  = networking.LoadBalancerSettings_PASSTHROUGH /\
  @buildOutboundClusters exampleImports Examples.envPassthroughOnDns
    [Examples.reviews model.DNSLB] <> [] /\
  Forall (fun c => v2.Type_ c = v2.Cluster_ORIGINAL_DST)
         (@buildOutboundClusters exampleImports Examples.envPassthroughOnDns
            [Examples.reviews model.DNSLB]).
Proof.
  split; [reflexivity |].
  split; [vm_compute; discriminate |].
  exact (proj2 (proj2
           (applyTrafficPolicy_passthrough_forces_ORIGINAL_DST exampleImports
              (Examples.lbOnly networking.LoadBalancerSettings_PASSTHROUGH)
              eq_refl eq_refl))
           Examples.envPassthroughOnDns (Examples.reviews model.DNSLB)
           {| model.Spec := Examples.passthroughRule |} eq_refl eq_refl).
Defined.

(** ** Circuit breakers *)



(** C6: an absent traffic policy leaves every cluster unchanged (and so does
    a policy none of whose four blocks is present); applying the same
    connection-pool settings twice in a row gives the cluster that applying
    them once gives. *)
Theorem applyTrafficPolicy_absent_and_pool_idempotent
    (imports : Imports) (c : v2.Cluster) :
  applyTrafficPolicy c None = c /\
  applyTrafficPolicy c
    (Some {| networking.LoadBalancer := None;
             networking.ConnectionPool := None;
             networking.OutlierDetection_ := None;
             networking.Tls := None |}) = c /\
  (forall settings,
     applyConnectionPool (applyConnectionPool c (Some settings))
       (Some settings)
     = applyConnectionPool c (Some settings)).
Proof.
  split; [reflexivity |].
  split; [reflexivity |].
  intros [tcp http].
  destruct c.
  unfold applyConnectionPool; simpl.
  destruct http as [[a b m r] |]; destruct tcp as [[n [d |]] |]; simpl;
    split_cases; reflexivity.
Qed.

(** ** The orchestrator *)

(** C7: when the registry's service list query fails, [BuildClusters]
    returns nil, for every proxy; no cluster list is produced. *)
Theorem BuildClusters_services_error
    (imports : Imports) (env : model.Environment) (proxy : model.Proxy)
    (e : string) :
  model.Services (model.ServiceDiscovery_ env) = model.Err e ->
  BuildClusters env proxy = None.
Proof.
  intros H. unfold BuildClusters. now rewrite H.
Qed.

(** A registry that is down: nil for a sidecar and for a router. *)
Lemma BuildClusters_services_error_witness :
  model.Services (model.ServiceDiscovery_ Examples.envRegistryDown)
  = model.Err "registry unavailable" /\
  @BuildClusters exampleImports Examples.envRegistryDown Examples.sidecar
  = None /\
  @BuildClusters exampleImports Examples.envRegistryDown Examples.router
  = None.
Proof.
  split; [reflexivity |].
  split.
  - exact (BuildClusters_services_error exampleImports
             Examples.envRegistryDown Examples.sidecar eq_refl).
  - exact (BuildClusters_services_error exampleImports
             Examples.envRegistryDown Examples.router eq_refl).
Defined.

(** ** Inbound clusters *)

Section Inbound.
Context {imports : Imports}.

Lemma inbound_cluster_fields env name port servicePort :
  let c :=
    setUpstreamProtocol
      (buildDefaultCluster env name v2.Cluster_STATIC (loopback port))
      servicePort in
  v2.Type_ c = v2.Cluster_STATIC /\
  v2.Hosts c = loopback port /\
  oneThresholds c.
Proof.
  cbv zeta.
  destruct (setUpstreamProtocol_fields
              (buildDefaultCluster env name v2.Cluster_STATIC (loopback port))
              servicePort)
    as (-> & _ & HC & _ & _ & ->).
  destruct (buildDefaultCluster_fields env name v2.Cluster_STATIC
              (loopback port))
    as (_ & -> & -> & _ & HB & _).
  repeat split.
  exists emptyThresholds. now rewrite HC.
Qed.

Lemma baselineCluster_oneThresholds env service port name :
  oneThresholds (baselineCluster env service port name).
Proof.
  unfold baselineCluster, oneThresholds.
  set (d := buildDefaultCluster env _ _ _).
  destruct (setUpstreamProtocol_fields
              (updateEds env d (model.Hostname service)) port)
    as (_ & _ & -> & _).
  destruct (updateEds_fields env d (model.Hostname service)) as (_ & -> & _).
  exists emptyThresholds. apply buildDefaultCluster_fields.
Qed.

End Inbound.

(** C8: for N service instances and M management ports,
    [buildInboundClusters] returns exactly N + M clusters; each is of type
    STATIC and has a single host, the loopback address 127.0.0.1; the hosts
    are, in order, loopback with each instance's endpoint port and loopback
    with each management port (the ports as [uint32], that is the ports
    themselves when they are port numbers). *)
Theorem buildInboundClusters_static_loopback
    (imports : Imports) (env : model.Environment)
    (instances : list model.ServiceInstance)
    (managementPorts : list model.Port) :
  let clusters := buildInboundClusters env instances managementPorts in
  List.length clusters
  = (List.length instances + List.length managementPorts)%nat /\
  Forall (fun c =>
            v2.Type_ c = v2.Cluster_STATIC /\
            exists port, v2.Hosts c = loopback port)
         clusters /\
  map (@v2.Hosts) clusters
  = map (fun i => loopback (uint32 (model.Endpoint_Port (model.Endpoint i))))
        instances
    ++ map (fun p => loopback (uint32 (model.Port_ p))) managementPorts /\
  (Forall (fun i => portInRange (model.Endpoint_Port (model.Endpoint i)))
          instances ->
   Forall (fun p => portInRange (model.Port_ p)) managementPorts ->
   map (@v2.Hosts) clusters
   = map (fun i => loopback (model.Endpoint_Port (model.Endpoint i)))
         instances
     ++ map (fun p => loopback (model.Port_ p)) managementPorts).
Proof.
  cbv zeta. rewrite buildInboundClusters_map.
  assert (HH :
    map (@v2.Hosts)
      (map (fun instance =>
              setUpstreamProtocol
                (buildDefaultCluster env
                   (BuildSubsetKey model.TrafficDirectionInbound EmptyString
                      (model.Hostname (model.Service_ instance))
                      (model.ServicePort (model.Endpoint instance)))
                   v2.Cluster_STATIC
                   (loopback
                      (uint32 (model.Endpoint_Port (model.Endpoint instance)))))
                (model.ServicePort (model.Endpoint instance)))
           instances
       ++ map (fun port =>
                 setUpstreamProtocol
                   (buildDefaultCluster env
                      (BuildSubsetKey model.TrafficDirectionInbound EmptyString
                         ManagementClusterHostname port)
                      v2.Cluster_STATIC
                      (loopback (uint32 (model.Port_ port))))
                   port)
              managementPorts)
    = map (fun i => loopback (uint32 (model.Endpoint_Port (model.Endpoint i))))
          instances
      ++ map (fun p => loopback (uint32 (model.Port_ p))) managementPorts).
  { rewrite map_app, !map_map.
    f_equal; apply map_ext; intros x; apply inbound_cluster_fields. }
  split; [now rewrite length_app, !length_map |].
  split.
  { apply Forall_app; split; apply Forall_map, Forall_forall; intros x _.
    - split; [apply inbound_cluster_fields |].
      eexists. apply inbound_cluster_fields.
    - split; [apply inbound_cluster_fields |].
      eexists. apply inbound_cluster_fields. }
  split; [exact HH |].
  intros Hi Hp. rewrite HH.
  rewrite Forall_forall in Hi, Hp.
  f_equal; apply map_ext_in; intros x Hx.
  - now rewrite uint32_small by (apply Hi, Hx).
  - now rewrite uint32_small by (apply Hp, Hx).
Qed.

(** Instances on 8080 and 9090 and management port 15020: three clusters on
    loopback with these ports. *)
Lemma buildInboundClusters_static_loopback_witness :
  Forall (fun i => portInRange (model.Endpoint_Port (model.Endpoint i)))
         [Examples.instanceOn 8080; Examples.instanceOn 9090] /\
  Forall (fun p => portInRange (model.Port_ p)) [Examples.mgmt15020] /\
  map (@v2.Hosts)
    (@buildInboundClusters exampleImports Examples.envZeroTimeout
       [Examples.instanceOn 8080; Examples.instanceOn 9090]
       [Examples.mgmt15020])
  = [loopback 8080; loopback 9090; loopback 15020].
Proof.
  assert (Hi : Forall
                 (fun i => portInRange (model.Endpoint_Port (model.Endpoint i)))
                 [Examples.instanceOn 8080; Examples.instanceOn 9090])
    by (repeat constructor; unfold portInRange; simpl; lia).
  assert (Hp : Forall (fun p => portInRange (model.Port_ p))
                      [Examples.mgmt15020])
    by (repeat constructor; unfold portInRange; simpl; lia).
  split; [exact Hi |].
  split; [exact Hp |].
  exact (proj2 (proj2 (proj2
           (buildInboundClusters_static_loopback exampleImports
              Examples.envZeroTimeout
              [Examples.instanceOn 8080; Examples.instanceOn 9090]
              [Examples.mgmt15020])))
           Hi Hp).
Defined.

(** C9: every cluster made by [buildDefaultCluster] carries a circuit
    breakers block holding exactly one thresholds record, and so does every
    cluster of the outbound list and every cluster of the inbound list. *)
Theorem buildDefaultCluster_one_thresholds
    (imports : Imports) (env : model.Environment) :
  (forall name discoveryType hosts,
     oneThresholds (buildDefaultCluster env name discoveryType hosts)) /\
  (forall services,
     Forall oneThresholds (buildOutboundClusters env services)) /\
  (forall instances managementPorts,
     Forall oneThresholds
            (buildInboundClusters env instances managementPorts)).
Proof.
  split.
  { intros name discoveryType hosts. exists emptyThresholds.
    apply buildDefaultCluster_fields. }
  split.
  { intros services. apply buildOutboundClusters_Forall.
    - apply baselineCluster_oneThresholds.
    - intros c policy. apply applyTrafficPolicy_oneThresholds. }
  intros instances managementPorts.
  rewrite buildInboundClusters_map.
  apply Forall_app; split; apply Forall_map, Forall_forall; intros x _;
    apply inbound_cluster_fields.
Qed.

(** ** The EDS refresh delay *)




(** * Further properties *)

(** ** Each step of the policy engine, field by field *)

Lemma cluster_ext (c d : v2.Cluster) :
  v2.Name c = v2.Name d ->
  v2.Type_ c = v2.Type_ d ->
  v2.EdsClusterConfig c = v2.EdsClusterConfig d ->
  v2.ConnectTimeout c = v2.ConnectTimeout d ->
  v2.Hosts c = v2.Hosts d ->
  v2.LbPolicy c = v2.LbPolicy d ->
  v2.CircuitBreakers c = v2.CircuitBreakers d ->
  v2.TlsContext c = v2.TlsContext d ->
  v2.MaxRequestsPerConnection c = v2.MaxRequestsPerConnection d ->
  v2.Http2ProtocolOptions c = v2.Http2ProtocolOptions d ->
  v2.OutlierDetection c = v2.OutlierDetection d ->
  c = d.
Proof.
  destruct c, d; simpl; intros; subst; reflexivity.
Qed.

Lemma positive32_positiveInt32 (x : Z) :
  positiveInt32 x -> positive32 x = Some x.
Proof.
  unfold positiveInt32, positive32. intros H.
  destruct (Z.ltb_spec 0 x) as [_ | Hle]; [| lia].
  rewrite uint32_small by lia. reflexivity.
Qed.

Lemma positive32_not_positive (x : Z) : x <= 0 -> positive32 x = None.
Proof.
  unfold positive32. intros H.
  destruct (Z.ltb_spec 0 x) as [Hlt | _]; [lia | reflexivity].
Qed.

Section Steps.
Context {imports : Imports}.

Lemma applyConnectionPool_frame c settings :
  let c' := applyConnectionPool c settings in
  v2.Name c' = v2.Name c /\
  v2.LbPolicy c' = v2.LbPolicy c /\
  v2.TlsContext c' = v2.TlsContext c /\
  v2.Http2ProtocolOptions c' = v2.Http2ProtocolOptions c /\
  v2.OutlierDetection c' = v2.OutlierDetection c.
Proof.
  destruct settings as [[tcp http] |]; [| repeat split; reflexivity].
  unfold applyConnectionPool; simpl.
  destruct http as [h |]; destruct tcp as [t |]; simpl; split_cases;
    repeat split; reflexivity.
Qed.

Lemma applyConnectionPool_MaxRequestsPerConnection c settings :
  v2.MaxRequestsPerConnection (applyConnectionPool c (Some settings))
  = match networking.Http settings with
    | Some http =>
      match positive32 (networking.MaxRequestsPerConnection http) with
      | Some v => Some v
      | None => v2.MaxRequestsPerConnection c
      end
    | None => v2.MaxRequestsPerConnection c
    end.
Proof.
  destruct settings as [tcp http].
  unfold applyConnectionPool, positive32; simpl.
  destruct http as [h |]; destruct tcp as [t |]; simpl; split_cases;
    reflexivity.
Qed.

Lemma applyOutlierDetection_frame c outlier :
  let c' := applyOutlierDetection c outlier in
  v2.Name c' = v2.Name c /\
  v2.TlsContext c' = v2.TlsContext c /\
  v2.MaxRequestsPerConnection c' = v2.MaxRequestsPerConnection c /\
  v2.Http2ProtocolOptions c' = v2.Http2ProtocolOptions c.
Proof.
  unfold applyOutlierDetection.
  destruct outlier as [[[h |]] |]; simpl; repeat split; reflexivity.
Qed.

Lemma applyOutlierDetection_OutlierDetection c outlier :
  v2.OutlierDetection (applyOutlierDetection c outlier)
  = match outlier with
    | Some o =>
      match networking.OutlierDetection_Http o with
      | Some http => Some (outlierBlock http)
      | None => v2.OutlierDetection c
      end
    | None => v2.OutlierDetection c
    end.
Proof.
  unfold applyOutlierDetection, outlierBlock, positive32.
  destruct outlier as [[[h |]] |]; reflexivity.
Qed.

Lemma applyLoadBalancer_frame c lb :
  let c' := applyLoadBalancer c lb in
  v2.Name c' = v2.Name c /\
  v2.TlsContext c' = v2.TlsContext c /\
  v2.MaxRequestsPerConnection c' = v2.MaxRequestsPerConnection c /\
  v2.Http2ProtocolOptions c' = v2.Http2ProtocolOptions c /\
  v2.OutlierDetection c' = v2.OutlierDetection c.
Proof.
  unfold applyLoadBalancer.
  destruct lb as [lb |]; simpl; [| repeat split; reflexivity].
  destruct (networking.GetSimple lb); simpl; repeat split; reflexivity.
Qed.

Lemma applyLoadBalancer_LbPolicy c lb :
  v2.LbPolicy (applyLoadBalancer c lb)
  = match lb with
    | Some lb => simpleLbPolicy (networking.GetSimple lb)
    | None => v2.LbPolicy c
    end.
Proof.
  unfold applyLoadBalancer.
  destruct lb as [lb |]; simpl; [| reflexivity].
  destruct (networking.GetSimple lb); reflexivity.
Qed.

Lemma applyUpstreamTLSSettings_frame c tls :
  let c' := applyUpstreamTLSSettings c tls in
  v2.Name c' = v2.Name c /\
  v2.MaxRequestsPerConnection c' = v2.MaxRequestsPerConnection c /\
  v2.Http2ProtocolOptions c' = v2.Http2ProtocolOptions c /\
  v2.OutlierDetection c' = v2.OutlierDetection c.
Proof.
  unfold applyUpstreamTLSSettings.
  destruct tls as [tls |]; simpl; [| repeat split; reflexivity].
  destruct (networking.Mode tls); simpl; repeat split; reflexivity.
Qed.

Lemma applyUpstreamTLSSettings_TlsContext c tls :
  v2.TlsContext (applyUpstreamTLSSettings c tls)
  = match tls with
    | Some t =>
      match networking.Mode t with
      | networking.TLSSettings_DISABLE => v2.TlsContext c
      | _ => Some (tlsContextOf t)
      end
    | None => v2.TlsContext c
    end.
Proof.
  unfold applyUpstreamTLSSettings, tlsContextOf.
  destruct tls as [t |]; [| reflexivity].
  destruct (networking.Mode t); reflexivity.
Qed.

(** Every field of a cluster after a policy, from the field before and the
    one block of the policy that governs it. *)
Lemma applyTrafficPolicy_by_field c p :
  let c' := applyTrafficPolicy c (Some p) in
  v2.Name c' = v2.Name c /\
  v2.Type_ c' = v2.Type_ (applyLoadBalancer c (networking.LoadBalancer p)) /\
  v2.EdsClusterConfig c' = v2.EdsClusterConfig c /\
  v2.ConnectTimeout c'
  = v2.ConnectTimeout (applyConnectionPool c (networking.ConnectionPool p)) /\
  v2.Hosts c' = v2.Hosts c /\
  v2.LbPolicy c'
  = v2.LbPolicy (applyLoadBalancer c (networking.LoadBalancer p)) /\
  v2.CircuitBreakers c'
  = v2.CircuitBreakers (applyConnectionPool c (networking.ConnectionPool p)) /\
  v2.TlsContext c'
  = v2.TlsContext (applyUpstreamTLSSettings c (networking.Tls p)) /\
  v2.MaxRequestsPerConnection c'
  = v2.MaxRequestsPerConnection
      (applyConnectionPool c (networking.ConnectionPool p)) /\
  v2.Http2ProtocolOptions c' = v2.Http2ProtocolOptions c /\
  v2.OutlierDetection c'
  = v2.OutlierDetection
      (applyOutlierDetection c (networking.OutlierDetection_ p)).
Proof.
  cbv zeta.
  destruct (applyTrafficPolicy_Some_fields c p)
    as (HE & HH & HC & HT & HTy).
  unfold applyTrafficPolicy in *.
  set (cp := networking.ConnectionPool p) in *.
  set (od := networking.OutlierDetection_ p) in *.
  set (lb := networking.LoadBalancer p) in *.
  set (tls := networking.Tls p) in *.
  set (c1 := applyConnectionPool c cp) in *.
  set (c2 := applyOutlierDetection c1 od) in *.
  set (c3 := applyLoadBalancer c2 lb) in *.
  destruct (applyConnectionPool_frame c cp) as (N1 & L1 & T1 & P1 & O1).
  destruct (applyOutlierDetection_frame c1 od) as (N2 & T2 & M2 & P2).
  destruct (applyOutlierDetection_fields c1 od) as (_ & _ & _ & _ & L2 & _).
  destruct (applyLoadBalancer_frame c2 lb) as (N3 & T3 & M3 & P3 & O3).
  destruct (applyUpstreamTLSSettings_frame c3 tls) as (N4 & M4 & P4 & O4).
  destruct (applyUpstreamTLSSettings_fields c3 tls)
    as (_ & _ & _ & _ & L4 & _).
  fold c1 in N1, L1, T1, P1, O1. fold c2 in N2, T2, M2, P2, L2.
  fold c3 in N3, T3, M3, P3, O3.
  repeat split; try congruence.
  - rewrite HTy, applyLoadBalancer_Type. reflexivity.
  - rewrite L4. unfold c3. rewrite !applyLoadBalancer_LbPolicy.
    destruct lb; congruence.
  - rewrite !applyUpstreamTLSSettings_TlsContext.
    destruct tls as [t |]; [destruct (networking.Mode t) |]; congruence.
  - rewrite O4, O3. unfold c2.
    rewrite !applyOutlierDetection_OutlierDetection.
    destruct od as [o |];
      [destruct (networking.OutlierDetection_Http o) |]; congruence.
Qed.

End Steps.

(** ** One policy, two policies *)

(** X1: applying the same traffic policy twice in a row gives the cluster
    that applying it once gives, whatever blocks the policy has. *)
Theorem applyTrafficPolicy_idempotent
    (imports : Imports) (c : v2.Cluster)
    (policy : option networking.TrafficPolicy) :
  applyTrafficPolicy (applyTrafficPolicy c policy) policy
  = applyTrafficPolicy c policy.
Proof.
  destruct policy as [p |]; [| reflexivity].
  destruct (applyTrafficPolicy_by_field (applyTrafficPolicy c (Some p)) p)
    as (N' & T' & E' & CT' & H' & L' & CB' & TL' & M' & P' & O').
  destruct (applyTrafficPolicy_by_field c p)
    as (N & T & E & CT & H & L & CB & TL & M & P & O).
  set (c' := applyTrafficPolicy c (Some p)) in *.
  apply cluster_ext.
  - exact N'.
  - rewrite T', applyLoadBalancer_Type, T, applyLoadBalancer_Type.
    destruct (networking.LoadBalancer p) as [l |];
      [destruct (networking.GetSimple l) |]; reflexivity.
  - exact E'.
  - rewrite CT'. destruct (networking.ConnectionPool p) as [s |];
      [| reflexivity].
    rewrite applyConnectionPool_ConnectTimeout, CT,
      applyConnectionPool_ConnectTimeout.
    destruct (networking.Tcp s) as [tcp |];
      [destruct (networking.ConnectTimeout tcp) |]; reflexivity.
  - exact H'.
  - rewrite L', applyLoadBalancer_LbPolicy, L, applyLoadBalancer_LbPolicy.
    destruct (networking.LoadBalancer p); reflexivity.
  - rewrite CB'. destruct (networking.ConnectionPool p) as [s |];
      [| reflexivity].
    rewrite applyConnectionPool_CircuitBreakers, CB,
      applyConnectionPool_CircuitBreakers. reflexivity.
  - rewrite TL', applyUpstreamTLSSettings_TlsContext, TL,
      applyUpstreamTLSSettings_TlsContext.
    destruct (networking.Tls p) as [t |];
      [destruct (networking.Mode t) |]; reflexivity.
  - rewrite M'. destruct (networking.ConnectionPool p) as [s |];
      [| reflexivity].
    rewrite applyConnectionPool_MaxRequestsPerConnection, M,
      applyConnectionPool_MaxRequestsPerConnection.
    destruct (networking.Http s) as [h |]; [| reflexivity].
    destruct (positive32 (networking.MaxRequestsPerConnection h));
      reflexivity.
  - exact P'.
  - rewrite O', applyOutlierDetection_OutlierDetection, O,
      applyOutlierDetection_OutlierDetection.
    destruct (networking.OutlierDetection_ p) as [o |];
      [destruct (networking.OutlierDetection_Http o) |]; reflexivity.
Qed.

(** ** The baseline cluster, field by field *)

Section Baseline.
Context {imports : Imports}.

Lemma updateEds_frame env c serviceName :
  let c' := updateEds env c serviceName in
  v2.Name c' = v2.Name c /\
  v2.TlsContext c' = v2.TlsContext c /\
  v2.MaxRequestsPerConnection c' = v2.MaxRequestsPerConnection c /\
  v2.Http2ProtocolOptions c' = v2.Http2ProtocolOptions c /\
  v2.OutlierDetection c' = v2.OutlierDetection c.
Proof.
  unfold updateEds.
  destruct (negb _); simpl; repeat split; reflexivity.
Qed.

Lemma setUpstreamProtocol_frame c port :
  let c' := setUpstreamProtocol c port in
  v2.Name c' = v2.Name c /\
  v2.TlsContext c' = v2.TlsContext c /\
  v2.MaxRequestsPerConnection c' = v2.MaxRequestsPerConnection c /\
  v2.OutlierDetection c' = v2.OutlierDetection c.
Proof.
  unfold setUpstreamProtocol.
  split_cases; simpl; repeat split; reflexivity.
Qed.

(** HTTP/2 options appear for an HTTP/2 or gRPC port only, and are never
    taken away. *)
Lemma setUpstreamProtocol_Http2 c port :
  v2.Http2ProtocolOptions (setUpstreamProtocol c port)
  = if model.IsHTTP (model.Protocol_ port)
       && (model.Protocol_eqb (model.Protocol_ port) model.ProtocolHTTP2
           || model.Protocol_eqb (model.Protocol_ port) model.ProtocolGRPC)
    then Some core.Build_Http2ProtocolOptions
    else v2.Http2ProtocolOptions c.
Proof.
  unfold setUpstreamProtocol.
  destruct (model.IsHTTP _); simpl; [| reflexivity].
  destruct (_ || _); reflexivity.
Qed.

Lemma buildDefaultCluster_policy_fields env name discoveryType hosts :
  let c := buildDefaultCluster env name discoveryType hosts in
  v2.LbPolicy c
  = (if v2.DiscoveryType_eqb discoveryType v2.Cluster_ORIGINAL_DST
     then v2.Cluster_ORIGINAL_DST_LB else v2.Cluster_ROUND_ROBIN) /\
  v2.TlsContext c = None /\
  v2.OutlierDetection c = None /\
  v2.MaxRequestsPerConnection c = None /\
  v2.Http2ProtocolOptions c = None.
Proof.
  destruct env as [sd store [[s n] refresh]].
  destruct discoveryType; cbv -[ConvertGogoDurationToDuration];
    repeat split; reflexivity.
Qed.

(** The cluster of a (service, port, subset name) before user policy: its
    name is the subset key, its hosts are the registry's, its load balancer
    follows its discovery type, its connect timeout is the mesh default. *)
Lemma baselineCluster_fields env service port name :
  let c := baselineCluster env service port name in
  v2.Name c
  = BuildSubsetKey model.TrafficDirectionOutbound name
      (model.Hostname service) port /\
  v2.Hosts c = buildClusterHosts env service port /\
  v2.LbPolicy c
  = (if v2.DiscoveryType_eqb (convertResolution (model.Resolution_ service))
          v2.Cluster_ORIGINAL_DST
     then v2.Cluster_ORIGINAL_DST_LB else v2.Cluster_ROUND_ROBIN) /\
  v2.ConnectTimeout c
  = ConvertGogoDurationToDuration (model.ConnectTimeout (model.Mesh env)) /\
  v2.Http2ProtocolOptions c
  = (if model.IsHTTP (model.Protocol_ port)
        && (model.Protocol_eqb (model.Protocol_ port) model.ProtocolHTTP2
            || model.Protocol_eqb (model.Protocol_ port) model.ProtocolGRPC)
     then Some core.Build_Http2ProtocolOptions else None) /\
  plainCluster c.
Proof.
  cbv zeta. unfold baselineCluster, plainCluster.
  set (key := BuildSubsetKey _ _ _ _).
  set (t := convertResolution _).
  set (hosts := buildClusterHosts _ _ _).
  set (host := model.Hostname service).
  set (d := buildDefaultCluster env key t hosts).
  destruct (buildDefaultCluster_fields env key t hosts)
    as (dN & dT & dH & dE & dC & dCT).
  destruct (buildDefaultCluster_policy_fields env key t hosts)
    as (dL & dTL & dO & dM & dP).
  fold d in dN, dT, dH, dE, dC, dCT, dL, dTL, dO, dM, dP.
  destruct (updateEds_fields env d host) as (uT & uC & uCT & uL & uH).
  destruct (updateEds_frame env d host) as (uN & uTL & uM & uP & uO).
  set (u := updateEds env d host) in *.
  destruct (setUpstreamProtocol_fields u port)
    as (sT & sE & sC & sCT & sL & sH).
  destruct (setUpstreamProtocol_frame u port) as (sN & sTL & sM & sO).
  rewrite setUpstreamProtocol_Http2.
  repeat split; try congruence.
  rewrite uP, dP. reflexivity.
Qed.

End Baseline.

(** X2: a traffic policy touches only the categories it carries.  Name, EDS
    linkage, hosts and HTTP/2 options are never touched; without a
    connection-pool block the connect timeout, the circuit breakers and
    max-requests-per-connection stay; without an outlier Http block the
    outlier detection stays; without a load-balancer block the balancer and
    the discovery type stay; without a TLS block, or with one in DISABLE
    mode, the TLS context stays. *)
Theorem applyTrafficPolicy_touches_present_blocks_only
    (imports : Imports) (c : v2.Cluster) (p : networking.TrafficPolicy) :
  let c' := applyTrafficPolicy c (Some p) in
  (v2.Name c' = v2.Name c /\
   v2.EdsClusterConfig c' = v2.EdsClusterConfig c /\
   v2.Hosts c' = v2.Hosts c /\
   v2.Http2ProtocolOptions c' = v2.Http2ProtocolOptions c) /\
  (networking.ConnectionPool p = None ->
   v2.ConnectTimeout c' = v2.ConnectTimeout c /\
   v2.CircuitBreakers c' = v2.CircuitBreakers c /\
   v2.MaxRequestsPerConnection c' = v2.MaxRequestsPerConnection c) /\
  (match networking.OutlierDetection_ p with
   | Some o => networking.OutlierDetection_Http o = None
   | None => True
   end ->
   v2.OutlierDetection c' = v2.OutlierDetection c) /\
  (networking.LoadBalancer p = None ->
   v2.LbPolicy c' = v2.LbPolicy c /\ v2.Type_ c' = v2.Type_ c) /\
  (match networking.Tls p with
   | Some t => networking.Mode t = networking.TLSSettings_DISABLE
   | None => True
   end ->
   v2.TlsContext c' = v2.TlsContext c).
Proof.
  cbv zeta.
  destruct (applyTrafficPolicy_by_field c p)
    as (N & T & E & CT & H & L & CB & TL & M & P & O).
  split; [repeat split; assumption |].
  split.
  { intros Hcp. rewrite CT, CB, M, Hcp. repeat split; reflexivity. }
  split.
  { intros Hod. rewrite O, applyOutlierDetection_OutlierDetection.
    destruct (networking.OutlierDetection_ p) as [o |]; [| reflexivity].
    now rewrite Hod. }
  split.
  { intros Hlb. rewrite L, T, Hlb. split; reflexivity. }
  intros Htls. rewrite TL, applyUpstreamTLSSettings_TlsContext.
  destruct (networking.Tls p) as [t |]; [| reflexivity].
  now rewrite Htls.
Qed.

(** A policy with a load-balancer block only keeps the timeout of 7s. *)
Lemma applyTrafficPolicy_touches_present_blocks_only_witness :
  networking.ConnectionPool
    (Examples.lbOnly networking.LoadBalancerSettings_RANDOM) = None /\
  v2.ConnectTimeout
    (@applyTrafficPolicy exampleImports Examples.sevenSecondCluster
       (Some (Examples.lbOnly networking.LoadBalancerSettings_RANDOM)))
  = 7 * time.Second /\
  v2.TlsContext
    (@applyTrafficPolicy exampleImports MoreExamples.securedCluster
       (Some (MoreExamples.tlsOnly MoreExamples.disableTls)))
  = Some (tlsContextOf MoreExamples.mutualTls).
Proof.
  split; [reflexivity |].
  split.
  - exact (proj1 (proj1 (proj2
             (applyTrafficPolicy_touches_present_blocks_only exampleImports
                Examples.sevenSecondCluster
                (Examples.lbOnly networking.LoadBalancerSettings_RANDOM)))
             eq_refl)).
  - exact (proj2 (proj2 (proj2 (proj2
             (applyTrafficPolicy_touches_present_blocks_only exampleImports
                MoreExamples.securedCluster
                (MoreExamples.tlsOnly MoreExamples.disableTls)))))
             eq_refl).
Defined.

(** X3: no traffic policy takes anything away.  A TLS context, an
    outlier-detection block, a circuit-breakers block, a
    max-requests-per-connection value, an EDS linkage or HTTP/2 options that
    a cluster carries are still carried (possibly replaced) after any
    policy. *)
Theorem applyTrafficPolicy_removes_nothing
    (imports : Imports) (c : v2.Cluster)
    (policy : option networking.TrafficPolicy) :
  let c' := applyTrafficPolicy c policy in
  (v2.TlsContext c <> None -> v2.TlsContext c' <> None) /\
  (v2.OutlierDetection c <> None -> v2.OutlierDetection c' <> None) /\
  (v2.CircuitBreakers c <> None -> v2.CircuitBreakers c' <> None) /\
  (v2.MaxRequestsPerConnection c <> None ->
   v2.MaxRequestsPerConnection c' <> None) /\
  (v2.EdsClusterConfig c <> None -> v2.EdsClusterConfig c' <> None) /\
  (v2.Http2ProtocolOptions c <> None -> v2.Http2ProtocolOptions c' <> None).
Proof.
  cbv zeta.
  destruct policy as [p |]; [| repeat split; intros H; exact H].
  destruct (applyTrafficPolicy_by_field c p)
    as (N & T & E & CT & H & L & CB & TL & M & P & O).
  rewrite TL, O, CB, M, E, P.
  rewrite applyUpstreamTLSSettings_TlsContext,
    applyOutlierDetection_OutlierDetection.
  repeat split.
  - destruct (networking.Tls p) as [t |];
      [destruct (networking.Mode t) |]; intros Hc; try exact Hc;
      discriminate.
  - destruct (networking.OutlierDetection_ p) as [o |];
      [destruct (networking.OutlierDetection_Http o) |]; intros Hc;
      try exact Hc; discriminate.
  - destruct (networking.ConnectionPool p) as [s |]; [| intros Hc; exact Hc].
    rewrite applyConnectionPool_CircuitBreakers. discriminate.
  - destruct (networking.ConnectionPool p) as [s |]; [| intros Hc; exact Hc].
    rewrite applyConnectionPool_MaxRequestsPerConnection.
    destruct (networking.Http s) as [h |]; [| intros Hc; exact Hc].
    destruct (positive32 _); intros Hc; [discriminate | exact Hc].
  - intros Hc; exact Hc.
  - intros Hc; exact Hc.
Qed.

(** A secured cluster under a policy that disables TLS: still secured. *)
Lemma applyTrafficPolicy_removes_nothing_witness :
  v2.TlsContext MoreExamples.securedCluster <> None /\
  v2.TlsContext
    (@applyTrafficPolicy exampleImports MoreExamples.securedCluster
       (Some (MoreExamples.tlsOnly MoreExamples.disableTls)))
  <> None.
Proof.
  assert (H : v2.TlsContext MoreExamples.securedCluster <> None)
    by discriminate.
  split; [exact H |].
  exact (proj1
           (applyTrafficPolicy_removes_nothing exampleImports
              MoreExamples.securedCluster
              (Some (MoreExamples.tlsOnly MoreExamples.disableTls)))
           H).
Defined.



(** X5: a load-balancer block that carries no simple policy (its oneof is
    unset or holds a consistent-hash policy) is read as round robin: it sets
    the cluster's balancer to round robin, whatever it was, and keeps the
    discovery type. *)
Theorem applyTrafficPolicy_lb_without_simple_is_round_robin
    (imports : Imports) (c : v2.Cluster) (p : networking.TrafficPolicy)
    (lb : networking.LoadBalancerSettings) :
  networking.LoadBalancer p = Some lb ->
  networking.LbPolicy lb = None \/
  networking.LbPolicy lb = Some networking.LoadBalancerSettings_ConsistentHash ->
  v2.LbPolicy (applyTrafficPolicy c (Some p)) = v2.Cluster_ROUND_ROBIN /\
  v2.Type_ (applyTrafficPolicy c (Some p)) = v2.Type_ c.
Proof.
  intros Hlb Hone.
  destruct (applyTrafficPolicy_by_field c p)
    as (_ & T & _ & _ & _ & L & _).
  rewrite T, L, applyLoadBalancer_Type, applyLoadBalancer_LbPolicy, Hlb.
  assert (HS : networking.GetSimple lb
               = networking.LoadBalancerSettings_ROUND_ROBIN)
    by (unfold networking.GetSimple; destruct Hone as [-> | ->]; reflexivity).
  rewrite HS. split; reflexivity.
Qed.

(** A consistent-hash policy on a cluster balanced at random. *)
Lemma applyTrafficPolicy_lb_without_simple_is_round_robin_witness :
  v2.LbPolicy MoreExamples.securedCluster = v2.Cluster_RANDOM /\
  v2.LbPolicy
    (@applyTrafficPolicy exampleImports MoreExamples.securedCluster
       (Some MoreExamples.consistentHashPolicy))
  = v2.Cluster_ROUND_ROBIN.
Proof.
  split; [reflexivity |].
  exact (proj1
           (applyTrafficPolicy_lb_without_simple_is_round_robin
              exampleImports MoreExamples.securedCluster
              MoreExamples.consistentHashPolicy
              eq_refl (or_intror eq_refl))).
Defined.



(** X7: max-requests-per-connection is set on the cluster, not in the
    thresholds, and a later connection pool without an Http block does not
    reset it, while it does replace the thresholds: after a pool whose Http
    block sets a strictly positive max-requests-per-connection and a second
    pool with no Http block, the cluster keeps the first pool's value and
    carries the second pool's thresholds only. *)
Theorem applyConnectionPool_max_requests_per_connection_sticks
    (imports : Imports) (c : v2.Cluster)
    (first second : networking.ConnectionPoolSettings)
    (http : networking.ConnectionPoolSettings_HTTPSettings) :
  networking.Http first = Some http ->
  positiveInt32 (networking.MaxRequestsPerConnection http) ->
  networking.Http second = None ->
  let c'' :=
    applyConnectionPool (applyConnectionPool c (Some first)) (Some second) in
  v2.MaxRequestsPerConnection c''
  = Some (networking.MaxRequestsPerConnection http) /\
  v2.CircuitBreakers c''
  = Some {| v2_cluster.Thresholds := [poolThresholds second] |} /\
  v2_cluster.MaxRequests (poolThresholds second) = None /\
  v2_cluster.MaxPendingRequests (poolThresholds second) = None /\
  v2_cluster.MaxRetries (poolThresholds second) = None.
Proof.
  intros Hfirst Hpos Hsecond. cbv zeta.
  rewrite applyConnectionPool_CircuitBreakers.
  rewrite !applyConnectionPool_MaxRequestsPerConnection, Hsecond, Hfirst.
  rewrite (positive32_positiveInt32 Hpos).
  unfold poolThresholds. rewrite Hsecond.
  repeat split; reflexivity.
Qed.

(** The rule-level pool (four requests per connection) and then the
    subset-level pool (no Http block). *)
Lemma applyConnectionPool_max_requests_per_connection_sticks_witness :
  positiveInt32 4 /\
  v2.MaxRequestsPerConnection
    (@applyConnectionPool exampleImports
       (@applyConnectionPool exampleImports Examples.sevenSecondCluster
          (Some Examples.rulePool))
       (Some Examples.subsetPool))
  = Some 4.
Proof.
  assert (H : positiveInt32 4) by (unfold positiveInt32; lia).
  split; [exact H |].
  exact (proj1
           (applyConnectionPool_max_requests_per_connection_sticks
              exampleImports Examples.sevenSecondCluster
              Examples.rulePool Examples.subsetPool
              eq_refl H eq_refl)).
Defined.

(** ** The outbound list as a whole *)

Section OutboundFacts.
Context {imports : Imports}.

Lemma convertResolution_outbound resolution :
  convertResolution resolution = v2.Cluster_EDS \/
  convertResolution resolution = v2.Cluster_STRICT_DNS \/
  convertResolution resolution = v2.Cluster_ORIGINAL_DST.
Proof.
  unfold convertResolution.
  destruct (resolution =? model.ClientSideLB); [now left |].
  destruct (resolution =? model.DNSLB); [now right; left |].
  destruct (resolution =? model.Passthrough); [now right; right | now left].
Qed.

Lemma applyTrafficPolicy_lbPolicyWellFormed c policy :
  lbPolicyWellFormed c -> lbPolicyWellFormed (applyTrafficPolicy c policy).
Proof.
  intros Hc. destruct policy as [p |]; [| exact Hc].
  destruct (applyTrafficPolicy_by_field c p) as (_ & T & _ & _ & _ & L & _).
  unfold lbPolicyWellFormed in *.
  rewrite T, L, applyLoadBalancer_Type, applyLoadBalancer_LbPolicy.
  destruct (networking.LoadBalancer p) as [lb |]; [| exact Hc].
  destruct (networking.GetSimple lb); simpl;
    repeat split; try discriminate; reflexivity.
Qed.

Lemma baselineCluster_lbPolicyWellFormed env service port name :
  lbPolicyWellFormed (baselineCluster env service port name).
Proof.
  destruct (baselineCluster_fields env service port name)
    as (_ & _ & L & _).
  pose proof (baselineCluster_Type env service port name) as T.
  unfold lbPolicyWellFormed. rewrite L, T.
  destruct (convertResolution (model.Resolution_ service)); simpl;
    repeat split; try discriminate; reflexivity.
Qed.

Lemma map_flat_map_list (A B C : Type) (f : B -> C) (g : A -> list B)
    (l : list A) :
  map f (flat_map g l) = flat_map (fun x => map f (g x)) l.
Proof.
  induction l as [| x l IH]; simpl; [reflexivity |].
  now rewrite map_app, IH.
Qed.

Lemma flat_map_ext_list (A B : Type) (f g : A -> list B) (l : list A) :
  (forall x, f x = g x) -> flat_map f l = flat_map g l.
Proof.
  intros H. induction l as [| x l IH]; simpl; [reflexivity |].
  now rewrite H, IH.
Qed.

Lemma portClusters_names env service port :
  map (@v2.Name) (portClusters env service port)
  = portClusterNames env service port.
Proof.
  unfold portClusters, portClusterNames.
  assert (HN : forall name policy,
             v2.Name (applyTrafficPolicy
                        (baselineCluster env service port name) policy)
             = BuildSubsetKey model.TrafficDirectionOutbound name
                 (model.Hostname service) port).
  { intros name [p |].
    - destruct (applyTrafficPolicy_by_field
                  (baselineCluster env service port name) p) as (-> & _).
      apply baselineCluster_fields.
    - apply baselineCluster_fields. }
  destruct (model.DestinationRule _ _ _) as [config |]; simpl.
  - rewrite HN. f_equal. rewrite map_map. apply map_ext. intros subset.
    unfold subsetClusterOf.
    destruct (networking.Subset_TrafficPolicy subset) as [q |].
    + destruct (applyTrafficPolicy_by_field
                  (applyTrafficPolicy
                     (baselineCluster env service port
                        (networking.Subset_Name subset))
                     (networking.TrafficPolicy_ (model.Spec config))) q)
        as (-> & _).
      apply HN.
    + apply HN.
  - f_equal. apply baselineCluster_fields.
Qed.

Lemma portClusters_length env service port :
  List.length (portClusters env service port) = S (subsetCount env service).
Proof.
  unfold portClusters, subsetCount.
  destruct (model.DestinationRule _ _ _) as [config |]; simpl;
    [now rewrite length_map | reflexivity].
Qed.

End OutboundFacts.

(** X8: every cluster of the outbound list has discovery type EDS,
    STRICT_DNS or ORIGINAL_DST (never STATIC or LOGICAL_DNS); every outbound
    and every inbound cluster is balanced by round robin, least request,
    random or original destination (never ring hash or maglev), and the
    original-destination balancer only comes with discovery type
    ORIGINAL_DST. *)
Theorem built_clusters_types_and_balancers
    (imports : Imports) (env : model.Environment) :
  (forall services,
     Forall (fun c => outboundDiscoveryType c /\ lbPolicyWellFormed c)
            (buildOutboundClusters env services)) /\
  (forall instances managementPorts,
     Forall lbPolicyWellFormed
            (buildInboundClusters env instances managementPorts)).
Proof.
  split.
  - intros services. apply buildOutboundClusters_Forall.
    + intros service port name. split.
      * unfold outboundDiscoveryType. rewrite baselineCluster_Type.
        apply convertResolution_outbound.
      * apply baselineCluster_lbPolicyWellFormed.
    + intros c policy [HT HL]. split.
      * unfold outboundDiscoveryType in *.
        destruct (applyTrafficPolicy_Type c policy) as [-> | ->];
          [exact HT | now right; right].
      * now apply applyTrafficPolicy_lbPolicyWellFormed.
  - intros instances managementPorts.
    rewrite buildInboundClusters_map.
    assert (H : forall name port servicePort,
              lbPolicyWellFormed
                (setUpstreamProtocol
                   (buildDefaultCluster env name v2.Cluster_STATIC
                      (loopback port)) servicePort)).
    { intros name port servicePort. unfold lbPolicyWellFormed.
      destruct (setUpstreamProtocol_fields
                  (buildDefaultCluster env name v2.Cluster_STATIC
                     (loopback port)) servicePort)
        as (_ & _ & _ & _ & -> & _).
      destruct (buildDefaultCluster_policy_fields env name v2.Cluster_STATIC
                  (loopback port)) as (-> & _).
      simpl. repeat split; discriminate. }
    apply Forall_app; split; apply Forall_map, Forall_forall; intros x _;
      apply H.
Qed.

(** X9: the discovery type of an outbound cluster against the resolution of
    its service.  Among the clusters built for one service, a STRICT_DNS
    cluster belongs to a DNS-load-balanced service, an EDS cluster to a
    service that is neither DNS-load-balanced nor passthrough, and every
    cluster of a passthrough service is ORIGINAL_DST. *)
Theorem buildOutboundClusters_type_against_resolution
    (imports : Imports) (env : model.Environment) (service : model.Service) :
  Forall (fun c =>
            (v2.Type_ c = v2.Cluster_STRICT_DNS ->
             model.Resolution_ service = model.DNSLB) /\
            (v2.Type_ c = v2.Cluster_EDS ->
             model.Resolution_ service <> model.DNSLB /\
             model.Resolution_ service <> model.Passthrough) /\
            (model.Resolution_ service = model.Passthrough ->
             v2.Type_ c = v2.Cluster_ORIGINAL_DST))
         (buildOutboundClusters env [service]).
Proof.
  assert (HF : Forall (fun c =>
                         v2.Type_ c
                         = convertResolution (model.Resolution_ service) \/
                         v2.Type_ c = v2.Cluster_ORIGINAL_DST)
                      (buildOutboundClusters env [service])).
  { rewrite buildOutboundClusters_flat_map. simpl. rewrite app_nil_r.
    unfold serviceClusters.
    apply Forall_flat_map, Forall_forall. intros port _.
    assert (HB : forall name policy,
               v2.Type_ (applyTrafficPolicy
                           (baselineCluster env service port name) policy)
               = convertResolution (model.Resolution_ service) \/
               v2.Type_ (applyTrafficPolicy
                           (baselineCluster env service port name) policy)
               = v2.Cluster_ORIGINAL_DST).
    { intros name policy.
      destruct (applyTrafficPolicy_Type
                  (baselineCluster env service port name) policy)
        as [-> | ->]; [left; apply baselineCluster_Type | now right]. }
    unfold portClusters.
    destruct (model.DestinationRule _ _ _) as [config |].
    - constructor; [apply HB |].
      apply Forall_map, Forall_forall. intros subset _.
      unfold subsetClusterOf.
      destruct (applyTrafficPolicy_Type
                  (applyTrafficPolicy
                     (baselineCluster env service port
                        (networking.Subset_Name subset))
                     (networking.TrafficPolicy_ (model.Spec config)))
                  (networking.Subset_TrafficPolicy subset))
        as [-> | ->]; [apply HB | now right].
    - constructor; [| constructor].
      left. apply baselineCluster_Type. }
  apply Forall_impl with (2 := HF).
  intros c Hc. unfold convertResolution in Hc.
  unfold model.ClientSideLB, model.DNSLB, model.Passthrough in *.
  destruct (Z.eqb_spec (model.Resolution_ service) 0) as [E0 | E0];
    destruct (Z.eqb_spec (model.Resolution_ service) 1) as [E1 | E1];
    destruct (Z.eqb_spec (model.Resolution_ service) 2) as [E2 | E2];
    destruct Hc as [Hc | Hc]; rewrite Hc;
    repeat split; intros; try discriminate; try lia; try reflexivity.
Qed.

(** X10: the names and the number of the outbound clusters.  The names of
    the outbound list are, service by service and port by port, the subset
    key of the default cluster (empty subset name) followed by the subset
    keys of the rule's subsets in their order; a service with P ports and a
    rule with S subsets (S = 0 without a rule) contributes P * (1 + S)
    clusters. *)
Theorem buildOutboundClusters_names_and_count
    (imports : Imports) (env : model.Environment)
    (services : list model.Service) :
  map (@v2.Name) (buildOutboundClusters env services)
  = flat_map (fun service =>
                flat_map (portClusterNames env service) (model.Ports service))
             services /\
  List.length (buildOutboundClusters env services)
  = list_sum
      (map (fun service =>
              (List.length (model.Ports service)
               * (1 + subsetCount env service))%nat)
           services).
Proof.
  rewrite buildOutboundClusters_flat_map. split.
  - rewrite map_flat_map_list. apply flat_map_ext_list. intros service.
    unfold serviceClusters. rewrite map_flat_map_list.
    apply flat_map_ext_list. intros port. apply portClusters_names.
  - induction services as [| service services IH]; simpl; [reflexivity |].
    rewrite length_app, IH. f_equal.
    unfold serviceClusters.
    induction (model.Ports service) as [| port ports IHp]; simpl;
      [reflexivity |].
    rewrite length_app, IHp, portClusters_length. reflexivity.
Qed.

(** ** Hosts *)

Lemma buildClusterHosts_not_DNS env service port :
  model.Resolution_ service <> model.DNSLB ->
  buildClusterHosts env service port = [].
Proof.
  intros H. unfold buildClusterHosts.
  destruct (Z.eqb_spec (model.Resolution_ service) model.DNSLB) as [E | E];
    [now elim H | reflexivity].
Qed.

(** X11: the static hosts of a service port.  [buildClusterHosts] returns no
    host for a service that is not DNS-load-balanced, whatever the registry
    knows, and no host when the registry's instance query fails; for a
    DNS-load-balanced service whose query succeeds it returns one address
    per instance, in the registry's order: the instance's address with its
    endpoint port as [uint32]. *)
Theorem buildClusterHosts_cases
    (env : model.Environment) (service : model.Service) (port : model.Port) :
  (model.Resolution_ service <> model.DNSLB ->
   buildClusterHosts env service port = []) /\
  (forall e,
     model.Instances (model.ServiceDiscovery_ env) (model.Hostname service)
       [model.Name port] [] = model.Err e ->
     buildClusterHosts env service port = []) /\
  (forall instances,
     model.Resolution_ service = model.DNSLB ->
     model.Instances (model.ServiceDiscovery_ env) (model.Hostname service)
       [model.Name port] [] = model.Ok instances ->
     buildClusterHosts env service port = map instanceAddress instances).
Proof.
  split; [apply buildClusterHosts_not_DNS |].
  unfold buildClusterHosts. split.
  - intros e H. rewrite H. now destruct (negb _).
  - intros instances Hr Hi. rewrite Hr, Hi. simpl.
    apply (fold_left_snoc instanceAddress instances []).
Qed.

(** A DNS-load-balanced service with two instances; the same service when
    the instance query fails. *)
Lemma buildClusterHosts_cases_witness :
  buildClusterHosts MoreExamples.envDns (Examples.reviews model.DNSLB)
    Examples.http80
  = [util.BuildAddress "10.0.0.1" 8080; util.BuildAddress "10.0.0.2" 8080] /\
  buildClusterHosts MoreExamples.envDns (Examples.reviews model.ClientSideLB)
    Examples.http80 = [] /\
  buildClusterHosts MoreExamples.envDnsDown (Examples.reviews model.DNSLB)
    Examples.http80 = [].
Proof.
  split; [| split].
  - exact (proj2 (proj2
             (buildClusterHosts_cases MoreExamples.envDns
                (Examples.reviews model.DNSLB) Examples.http80))
             _ eq_refl eq_refl).
  - apply (proj1
             (buildClusterHosts_cases MoreExamples.envDns
                (Examples.reviews model.ClientSideLB) Examples.http80)).
    discriminate.
  - exact (proj1 (proj2
             (buildClusterHosts_cases MoreExamples.envDnsDown
                (Examples.reviews model.DNSLB) Examples.http80))
             "registry unavailable" eq_refl).
Defined.

(** X12: user policy never changes hosts.  Every cluster of the outbound
    list carries the hosts [buildClusterHosts] resolved for one port of one
    of the services, default and subset clusters alike; when no service is
    DNS-load-balanced, no outbound cluster has a static host. *)
Theorem buildOutboundClusters_hosts
    (imports : Imports) (env : model.Environment)
    (services : list model.Service) :
  Forall (fun c =>
            exists service port,
              In service services /\
              In port (model.Ports service) /\
              v2.Hosts c = buildClusterHosts env service port)
         (buildOutboundClusters env services) /\
  (Forall (fun service => model.Resolution_ service <> model.DNSLB) services ->
   Forall (fun c => v2.Hosts c = []) (buildOutboundClusters env services)).
Proof.
  assert (HF : Forall (fun c =>
                         exists service port,
                           In service services /\
                           In port (model.Ports service) /\
                           v2.Hosts c = buildClusterHosts env service port)
                      (buildOutboundClusters env services)).
  { rewrite buildOutboundClusters_flat_map.
    apply Forall_flat_map, Forall_forall. intros service Hs.
    unfold serviceClusters.
    apply Forall_flat_map, Forall_forall. intros port Hp.
    assert (HB : forall name policy,
               v2.Hosts (applyTrafficPolicy
                           (baselineCluster env service port name) policy)
               = buildClusterHosts env service port).
    { intros name policy. rewrite applyTrafficPolicy_Hosts.
      apply baselineCluster_fields. }
    unfold portClusters.
    destruct (model.DestinationRule _ _ _) as [config |].
    - constructor; [exists service, port; now rewrite HB |].
      apply Forall_map, Forall_forall. intros subset _.
      exists service, port. unfold subsetClusterOf.
      now rewrite applyTrafficPolicy_Hosts, HB.
    - constructor; [| constructor].
      exists service, port. repeat split; try assumption.
      apply baselineCluster_fields. }
  split; [exact HF |].
  intros Hres. rewrite Forall_forall in Hres.
  apply Forall_impl with (2 := HF).
  intros c (service & port & Hs & _ & ->).
  apply buildClusterHosts_not_DNS, Hres, Hs.
Qed.

(** One client-side-load-balanced service: no static host anywhere. *)
Lemma buildOutboundClusters_hosts_witness :
  Forall (fun service => model.Resolution_ service <> model.DNSLB)
         [Examples.reviews model.ClientSideLB] /\
  @buildOutboundClusters exampleImports Examples.envReviewsV2
    [Examples.reviews model.ClientSideLB] <> [] /\
  Forall (fun c => v2.Hosts c = [])
         (@buildOutboundClusters exampleImports Examples.envReviewsV2
            [Examples.reviews model.ClientSideLB]).
Proof.
  assert (H : Forall (fun service => model.Resolution_ service <> model.DNSLB)
                     [Examples.reviews model.ClientSideLB])
    by (repeat constructor; discriminate).
  split; [exact H |].
  split; [vm_compute; discriminate |].
  exact (proj2
           (buildOutboundClusters_hosts exampleImports Examples.envReviewsV2
              [Examples.reviews model.ClientSideLB])
           H).
Defined.

(** ** The orchestrator, case by case *)

(** X13: when [BuildClusters] returns nil.  It returns nil exactly when the
    service list query fails, or the proxy is a sidecar and the query for
    its service instances fails; in every other case it returns a list
    (possibly empty). *)
Theorem BuildClusters_nil_iff_query_fails
    (imports : Imports) (env : model.Environment) (proxy : model.Proxy) :
  BuildClusters env proxy = None <->
  (exists e, model.Services (model.ServiceDiscovery_ env) = model.Err e) \/
  (model.Type_ proxy = model.Sidecar /\
   exists e,
     model.GetProxyServiceInstances (model.ServiceDiscovery_ env) proxy
     = model.Err e).
Proof.
  unfold BuildClusters.
  destruct (model.Services (model.ServiceDiscovery_ env)) as [services | e].
  - destruct (model.Type_ proxy) eqn:Hp; simpl.
    + destruct (model.GetProxyServiceInstances _ proxy) as [instances | e'].
      * split; [discriminate |].
        intros [[e He] | [_ [e He]]]; discriminate.
      * split; [| reflexivity].
        intros _. right. split; [reflexivity | now exists e'].
    + split; [discriminate |].
      intros [[e He] | [Hs _]]; discriminate.
    + split; [discriminate |].
      intros [[e He] | [Hs _]]; discriminate.
  - split; [| reflexivity]. intros _. left. now exists e.
Qed.

(** X14: a sidecar receives what any other proxy receives, and more.  When
    [BuildClusters] returns a list for a sidecar, it returns a list for a
    proxy of another type too, and the sidecar's list is that list, none of
    whose clusters has a zero connect timeout, followed by the inbound
    clusters of the sidecar's instances and management ports, followed by
    the JWKS clusters built for these instances, and nothing else. *)
Theorem BuildClusters_sidecar_extends_outbound
    (imports : Imports) (env : model.Environment)
    (sidecar other : model.Proxy) (clusters : list v2.Cluster) :
  model.Type_ sidecar = model.Sidecar ->
  model.Type_ other <> model.Sidecar ->
  BuildClusters env sidecar = Some clusters ->
  exists outbound instances,
    BuildClusters env other = Some outbound /\
    Forall (fun c => v2.ConnectTimeout c <> 0) outbound /\
    model.GetProxyServiceInstances (model.ServiceDiscovery_ env) sidecar
    = model.Ok instances /\
    clusters
    = outbound
      ++ buildInboundClusters env instances
           (model.ManagementPorts (model.ServiceDiscovery_ env)
              (model.IPAddress sidecar))
      ++ BuildJwksURIClustersForProxyInstances (model.Mesh env)
           (model.IstioConfigStore_ env) instances.
Proof.
  intros Hs Ho Hc.
  destruct (model.Services (model.ServiceDiscovery_ env))
    as [services | e] eqn:Hserv;
    [| unfold BuildClusters in Hc; rewrite Hserv in Hc; discriminate].
  destruct (model.GetProxyServiceInstances (model.ServiceDiscovery_ env)
              sidecar) as [instances | e] eqn:Hinst;
    [| unfold BuildClusters in Hc; rewrite Hserv, Hs, Hinst in Hc;
       discriminate].
  rewrite (BuildClusters_sidecar env sidecar Hs Hserv Hinst) in Hc.
  injection Hc as <-.
  assert (Hother : BuildClusters env other
                   = Some (map fixConnectTimeout
                             (buildOutboundClusters env services))).
  { unfold BuildClusters. rewrite Hserv.
    destruct (model.Type_ other); [now elim Ho | |]; reflexivity. }
  exists (map fixConnectTimeout (buildOutboundClusters env services)),
    instances.
  split; [exact Hother |].
  split; [exact (BuildClusters_not_sidecar_non_zero env other Ho Hother) |].
  split; reflexivity.
Qed.

(** A sidecar with one instance and one management port, next to a
    router; no instance asks for a JWKS cluster. *)
Lemma BuildClusters_sidecar_extends_outbound_witness :
  model.Type_ Examples.router <> model.Sidecar /\
  exists clusters outbound,
    @BuildClusters exampleImports MoreExamples.envSidecar Examples.sidecar
    = Some clusters /\
    @BuildClusters exampleImports MoreExamples.envSidecar Examples.router
    = Some outbound /\
    clusters
    = outbound
      ++ @buildInboundClusters exampleImports MoreExamples.envSidecar
           [Examples.instanceOn 8080] [Examples.mgmt15020]
      ++ [].
Proof.
  assert (H : model.Type_ Examples.router <> model.Sidecar) by discriminate.
  split; [exact H |].
  match eval vm_compute in
        (@BuildClusters exampleImports MoreExamples.envSidecar
           Examples.sidecar) with
  | Some ?l =>
    destruct (@BuildClusters_sidecar_extends_outbound exampleImports
                MoreExamples.envSidecar Examples.sidecar Examples.router l
                eq_refl H eq_refl)
      as (outbound & instances & Ho & _ & Hi & Hc);
    exists l, outbound
  end.
  split; [reflexivity |].
  split; [exact Ho |].
  injection Hi as <-. exact Hc.
Defined.

(** ** The EDS linkage *)

Lemma updateEds_linkageNamesCluster env c serviceName :
  v2.Type_ c = v2.Cluster_EDS ->
  linkageNamesCluster (updateEds env c serviceName).
Proof.
  intros HT. unfold linkageNamesCluster, updateEds. rewrite HT. simpl.
  intros eds Heds. injection Heds as <-. simpl.
  split; [reflexivity | eexists; reflexivity].
Qed.

(** X15: [updateEds] on its own.  The service name passed to it is not
    used: the linkage names the cluster itself.  Running it a second time
    changes nothing.  On a cluster of type EDS, a refresh setting of a
    non-zero number of seconds whose count of nanoseconds fits in 64 bits
    becomes the refresh delay as it is, also when it is negative; only zero
    is replaced. *)
Theorem updateEds_service_name_and_refresh
    (env : model.Environment) (c : v2.Cluster) (serviceName : string) :
  (forall other, updateEds env c other = updateEds env c serviceName) /\
  updateEds env (updateEds env c serviceName) serviceName
  = updateEds env c serviceName /\
  (v2.Type_ c = v2.Cluster_EDS ->
   linkageNamesCluster (updateEds env c serviceName) /\
   (secondsInRange (types.Seconds (model.RdsRefreshDelay (model.Mesh env))) ->
    types.Seconds (model.RdsRefreshDelay (model.Mesh env)) <> 0 ->
    edsRefreshDelay (updateEds env c serviceName)
    = Some (types.Seconds (model.RdsRefreshDelay (model.Mesh env))
            * time.Second))).
Proof.
  split; [reflexivity |].
  split.
  { unfold updateEds at 1.
    destruct (updateEds_fields env c serviceName) as (-> & _).
    destruct (v2.DiscoveryType_eqb (v2.Type_ c) v2.Cluster_EDS) eqn:E;
      simpl; [| reflexivity].
    unfold updateEds. rewrite E. reflexivity. }
  intros HT. split; [now apply updateEds_linkageNamesCluster |].
  intros Hrange Hnz.
  unfold edsRefreshDelay, updateEds. rewrite HT. simpl.
  unfold time.mul. unfold secondsInRange in Hrange.
  rewrite wrap64_small by exact Hrange.
  destruct (Z.eqb_spec
              (types.Seconds (model.RdsRefreshDelay (model.Mesh env))
               * time.Second) 0) as [E | E]; [| reflexivity].
  unfold time.Second in E. lia.
Qed.

(** A refresh setting of three seconds gives a refresh delay of 3s. *)
Lemma updateEds_service_name_and_refresh_witness :
  secondsInRange 3 /\
  edsRefreshDelay
    (updateEds MoreExamples.envThreeSecondRefresh Examples.sevenSecondCluster
       "reviews.default.svc")
  = Some (3 * time.Second).
Proof.
  assert (H : secondsInRange 3)
    by (unfold secondsInRange, time.Second; lia).
  split; [exact H |].
  refine (proj2 (proj2 (proj2
           (updateEds_service_name_and_refresh
              MoreExamples.envThreeSecondRefresh Examples.sevenSecondCluster
              "reviews.default.svc")) eq_refl) H _).
  discriminate.
Defined.

Section LinkageFacts.
Context {imports : Imports}.

Lemma baselineCluster_linkageNamesCluster env service port name :
  linkageNamesCluster (baselineCluster env service port name).
Proof.
  unfold baselineCluster.
  set (d := buildDefaultCluster env _ _ _).
  set (host := model.Hostname service).
  destruct (setUpstreamProtocol_fields (updateEds env d host) port)
    as (_ & sE & _).
  destruct (setUpstreamProtocol_frame (updateEds env d host) port)
    as (sN & _).
  unfold linkageNamesCluster. rewrite sE, sN.
  destruct (v2.DiscoveryType_eqb (v2.Type_ d) v2.Cluster_EDS) eqn:E.
  - assert (HE : v2.Type_ d = v2.Cluster_EDS)
      by (destruct (v2.Type_ d); try discriminate E; reflexivity).
    apply (updateEds_linkageNamesCluster env d host HE).
  - assert (HE : v2.Type_ d <> v2.Cluster_EDS)
      by (intros HE; rewrite HE in E; discriminate E).
    rewrite (updateEds_not_EDS env d host HE).
    intros eds Heds.
    assert (HN : v2.EdsClusterConfig d = None)
      by apply buildDefaultCluster_fields.
    rewrite HN in Heds. discriminate Heds.
Qed.

End LinkageFacts.

(** X16: the linkage names its own cluster.  Every outbound cluster that
    carries an EDS linkage has as the linkage's service name its own name,
    and as source the xds cluster over gRPC with a refresh delay, also after
    user policy; no inbound cluster carries a linkage. *)
Theorem built_clusters_linkage_names_cluster
    (imports : Imports) (env : model.Environment) :
  (forall services,
     Forall linkageNamesCluster (buildOutboundClusters env services)) /\
  (forall instances managementPorts,
     Forall (fun c => v2.EdsClusterConfig c = None)
            (buildInboundClusters env instances managementPorts)).
Proof.
  split.
  - intros services. apply buildOutboundClusters_Forall.
    + apply baselineCluster_linkageNamesCluster.
    + intros c [p |] Hc; [| exact Hc].
      destruct (applyTrafficPolicy_by_field c p) as (N & _ & E & _).
      unfold linkageNamesCluster in *. rewrite N, E. exact Hc.
  - intros instances managementPorts.
    rewrite buildInboundClusters_map.
    assert (H : forall name port servicePort,
              v2.EdsClusterConfig
                (setUpstreamProtocol
                   (buildDefaultCluster env name v2.Cluster_STATIC
                      (loopback port)) servicePort) = None).
    { intros name port servicePort.
      destruct (setUpstreamProtocol_fields
                  (buildDefaultCluster env name v2.Cluster_STATIC
                     (loopback port)) servicePort) as (_ & -> & _).
      apply buildDefaultCluster_fields. }
    apply Forall_app; split; apply Forall_map, Forall_forall; intros x _;
      apply H.
Qed.

(** ** Connect timeouts, layer by layer *)

Section TimeoutLayers.
Context {imports : Imports}.

Lemma applyTrafficPolicy_ConnectTimeout c policy :
  v2.ConnectTimeout (applyTrafficPolicy c policy)
  = match policyConnectTimeout policy with
    | Some d => ConvertGogoDurationToDuration d
    | None => v2.ConnectTimeout c
    end.
Proof.
  destruct policy as [p |]; [| reflexivity].
  destruct (applyTrafficPolicy_by_field c p) as (_ & _ & _ & -> & _).
  unfold policyConnectTimeout.
  destruct (networking.ConnectionPool p) as [s |]; [| reflexivity].
  rewrite applyConnectionPool_ConnectTimeout.
  destruct (networking.Tcp s) as [tcp |]; reflexivity.
Qed.

Lemma subsetClusterOf_In env service port config subset :
  model.DestinationRule (model.IstioConfigStore_ env)
    (model.Hostname service) EmptyString = Some config ->
  In port (model.Ports service) ->
  In subset (networking.Subsets (model.Spec config)) ->
  In (subsetClusterOf env service port (model.Spec config) subset)
     (buildOutboundClusters env [service]).
Proof.
  intros Hrule Hport Hsubset.
  rewrite buildOutboundClusters_flat_map. simpl. rewrite app_nil_r.
  unfold serviceClusters. apply in_flat_map. exists port.
  split; [exact Hport |].
  unfold portClusters. rewrite Hrule. right.
  apply in_map, Hsubset.
Qed.

End TimeoutLayers.

(** X17: which connect timeout a subset cluster gets.  The cluster built for
    a subset of a destination rule is in the outbound list, and its connect
    timeout is the conversion of the subset policy's Tcp connect timeout if
    that is present, else of the rule-level policy's if that is present,
    else of the mesh default. *)
Theorem subset_cluster_connect_timeout
    (imports : Imports) (env : model.Environment) (service : model.Service)
    (port : model.Port) (config : model.Config) (subset : networking.Subset) :
  model.DestinationRule (model.IstioConfigStore_ env)
    (model.Hostname service) EmptyString = Some config ->
  In port (model.Ports service) ->
  In subset (networking.Subsets (model.Spec config)) ->
  let c := subsetClusterOf env service port (model.Spec config) subset in
  In c (buildOutboundClusters env [service]) /\
  v2.ConnectTimeout c
  = ConvertGogoDurationToDuration
      match policyConnectTimeout (networking.Subset_TrafficPolicy subset) with
      | Some d => d
      | None =>
        match policyConnectTimeout
                (networking.TrafficPolicy_ (model.Spec config)) with
        | Some d => d
        | None => model.ConnectTimeout (model.Mesh env)
        end
      end.
Proof.
  intros Hrule Hport Hsubset. cbv zeta.
  split; [now apply subsetClusterOf_In |].
  unfold subsetClusterOf.
  rewrite !applyTrafficPolicy_ConnectTimeout.
  destruct (policyConnectTimeout (networking.Subset_TrafficPolicy subset));
    [reflexivity |].
  destruct (policyConnectTimeout
              (networking.TrafficPolicy_ (model.Spec config)));
    [reflexivity |].
  apply baselineCluster_fields.
Qed.

(** The subset v2 carries no timeout, nor does its rule: the mesh default of
    one second. *)
Lemma subset_cluster_connect_timeout_witness :
  In Examples.http80 (model.Ports (Examples.reviews model.ClientSideLB)) /\
  exists subset,
    In subset (networking.Subsets Examples.v2RandomRule) /\
    v2.ConnectTimeout
      (@subsetClusterOf exampleImports MoreExamples.envSidecar
         (Examples.reviews model.ClientSideLB) Examples.http80
         Examples.v2RandomRule subset)
    = 1 * time.Second.
Proof.
  assert (Hp : In Examples.http80
                  (model.Ports (Examples.reviews model.ClientSideLB)))
    by (left; reflexivity).
  split; [exact Hp |].
  eexists. split; [left; reflexivity |].
  exact (proj2
           (@subset_cluster_connect_timeout exampleImports
              MoreExamples.envSidecar (Examples.reviews model.ClientSideLB)
              Examples.http80 {| model.Spec := Examples.v2RandomRule |} _
              eq_refl Hp (or_introl eq_refl))).
Defined.

(** ** HTTP/2 options *)

Section Http2Facts.
Context {imports : Imports}.

Lemma applyTrafficPolicy_Http2ProtocolOptions c policy :
  v2.Http2ProtocolOptions (applyTrafficPolicy c policy)
  = v2.Http2ProtocolOptions c.
Proof.
  destruct policy as [p |]; [| reflexivity].
  apply (applyTrafficPolicy_by_field c p).
Qed.

(** The clusters of a port all carry the options the baseline got. *)
Lemma portClusters_Http2ProtocolOptions env service port :
  Forall (fun c =>
            v2.Http2ProtocolOptions c
            = if model.IsHTTP (model.Protocol_ port)
                 && (model.Protocol_eqb (model.Protocol_ port)
                       model.ProtocolHTTP2
                     || model.Protocol_eqb (model.Protocol_ port)
                          model.ProtocolGRPC)
              then Some core.Build_Http2ProtocolOptions else None)
         (portClusters env service port).
Proof.
  assert (HB : forall name,
             v2.Http2ProtocolOptions (baselineCluster env service port name)
             = if model.IsHTTP (model.Protocol_ port)
                  && (model.Protocol_eqb (model.Protocol_ port)
                        model.ProtocolHTTP2
                      || model.Protocol_eqb (model.Protocol_ port)
                           model.ProtocolGRPC)
               then Some core.Build_Http2ProtocolOptions else None)
    by (intros name; apply baselineCluster_fields).
  unfold portClusters.
  destruct (model.DestinationRule _ _ _) as [config |].
  - constructor;
      [now rewrite applyTrafficPolicy_Http2ProtocolOptions |].
    apply Forall_map, Forall_forall. intros subset _.
    unfold subsetClusterOf.
    now rewrite !applyTrafficPolicy_Http2ProtocolOptions.
  - constructor; [apply HB | constructor].
Qed.

End Http2Facts.

(** X18: HTTP/2 options come from the port's protocol alone.  No traffic
    policy adds or removes HTTP/2 options.  Every outbound cluster of a
    service is the baseline cluster of one of the service's ports (under
    some subset name) after at most two policies, carries the HTTP/2 options
    that baseline cluster got from [setUpstreamProtocol], and carries them
    only if the protocol of that very port is HTTP/2 or gRPC. *)
Theorem buildOutboundClusters_http2_only_for_http2_ports
    (imports : Imports) (env : model.Environment) (service : model.Service) :
  (forall c policy,
     v2.Http2ProtocolOptions (applyTrafficPolicy c policy)
     = v2.Http2ProtocolOptions c) /\
  Forall (fun c =>
            exists port subsetName rulePolicy subsetPolicy,
              In port (model.Ports service) /\
              c = applyTrafficPolicy
                    (applyTrafficPolicy
                       (baselineCluster env service port subsetName)
                       rulePolicy)
                    subsetPolicy /\
              v2.Http2ProtocolOptions c
              = v2.Http2ProtocolOptions
                  (baselineCluster env service port subsetName) /\
              (v2.Http2ProtocolOptions c <> None ->
               model.Protocol_ port = model.ProtocolHTTP2 \/
               model.Protocol_ port = model.ProtocolGRPC))
         (buildOutboundClusters env [service]).
Proof.
  split; [apply @applyTrafficPolicy_Http2ProtocolOptions |].
  assert (Hproto : forall port name,
             v2.Http2ProtocolOptions (baselineCluster env service port name)
             <> None ->
             model.Protocol_ port = model.ProtocolHTTP2 \/
             model.Protocol_ port = model.ProtocolGRPC).
  { intros port name.
    destruct (baselineCluster_fields env service port name)
      as (_ & _ & _ & _ & -> & _).
    destruct (model.IsHTTP (model.Protocol_ port)); simpl;
      [| intros Hc; now elim Hc].
    destruct (model.Protocol_ port); simpl; intros Hc;
      try (now elim Hc); [now right | now left]. }
  assert (Hbuilt : forall port name rulePolicy subsetPolicy,
             In port (model.Ports service) ->
             exists port' subsetName rulePolicy' subsetPolicy',
               In port' (model.Ports service) /\
               applyTrafficPolicy
                 (applyTrafficPolicy (baselineCluster env service port name)
                    rulePolicy) subsetPolicy
               = applyTrafficPolicy
                   (applyTrafficPolicy
                      (baselineCluster env service port' subsetName)
                      rulePolicy') subsetPolicy' /\
               v2.Http2ProtocolOptions
                 (applyTrafficPolicy
                    (applyTrafficPolicy
                       (baselineCluster env service port name) rulePolicy)
                    subsetPolicy)
               = v2.Http2ProtocolOptions
                   (baselineCluster env service port' subsetName) /\
               (v2.Http2ProtocolOptions
                  (applyTrafficPolicy
                     (applyTrafficPolicy
                        (baselineCluster env service port name) rulePolicy)
                     subsetPolicy) <> None ->
                model.Protocol_ port' = model.ProtocolHTTP2 \/
                model.Protocol_ port' = model.ProtocolGRPC)).
  { intros port name rulePolicy subsetPolicy Hport.
    exists port, name, rulePolicy, subsetPolicy.
    split; [exact Hport |]. split; [reflexivity |].
    rewrite !applyTrafficPolicy_Http2ProtocolOptions.
    split; [reflexivity | apply Hproto]. }
  rewrite buildOutboundClusters_flat_map. simpl. rewrite app_nil_r.
  unfold serviceClusters.
  apply Forall_flat_map, Forall_forall. intros port Hport.
  unfold portClusters.
  destruct (model.DestinationRule _ _ _) as [config |].
  - constructor.
    + exact (Hbuilt port EmptyString
               (networking.TrafficPolicy_ (model.Spec config)) None Hport).
    + apply Forall_map, Forall_forall. intros subset _.
      unfold subsetClusterOf. now apply Hbuilt.
  - constructor; [| constructor].
    exact (Hbuilt port EmptyString None None Hport).
Qed.

(** X19: every cluster of an HTTP/2 or gRPC port carries HTTP/2 options.
    When all ports of a service have protocol HTTP/2 or gRPC (both in the
    HTTP family of [IsHTTP]), every outbound cluster of the service, default
    or subset, with or without user policy, carries HTTP/2 options. *)
Theorem buildOutboundClusters_http2_for_http2_ports
    (imports : Imports) (env : model.Environment) (service : model.Service) :
  Forall (fun port =>
            model.Protocol_ port = model.ProtocolHTTP2 \/
            model.Protocol_ port = model.ProtocolGRPC)
         (model.Ports service) ->
  Forall (fun c => v2.Http2ProtocolOptions c <> None)
         (buildOutboundClusters env [service]).
Proof.
  intros Hports. rewrite Forall_forall in Hports.
  rewrite buildOutboundClusters_flat_map. simpl. rewrite app_nil_r.
  unfold serviceClusters.
  apply Forall_flat_map, Forall_forall. intros port Hport.
  apply Forall_impl with (2 := portClusters_Http2ProtocolOptions env service port).
  intros c ->.
  destruct (Hports port Hport) as [-> | ->]; simpl; discriminate.
Qed.

(** A service with one gRPC port under a rule with one subset. *)
Lemma buildOutboundClusters_http2_for_http2_ports_witness :
  let service :=
    {| model.Hostname := "reviews.default.svc";
       model.Ports := [Examples.grpc90];
       model.Resolution_ := model.ClientSideLB |} in
  Forall (fun port =>
            model.Protocol_ port = model.ProtocolHTTP2 \/
            model.Protocol_ port = model.ProtocolGRPC)
         (model.Ports service) /\
  List.length
    (@buildOutboundClusters exampleImports Examples.envReviewsV2 [service])
  = 2%nat /\
  Forall (fun c => v2.Http2ProtocolOptions c <> None)
         (@buildOutboundClusters exampleImports Examples.envReviewsV2
            [service]).
Proof.
  cbv zeta.
  assert (H : Forall (fun port =>
                        model.Protocol_ port = model.ProtocolHTTP2 \/
                        model.Protocol_ port = model.ProtocolGRPC)
                     [Examples.grpc90])
    by (repeat constructor; now right).
  split; [exact H |].
  split; [reflexivity |].
  exact (@buildOutboundClusters_http2_for_http2_ports exampleImports
           Examples.envReviewsV2
           {| model.Hostname := "reviews.default.svc";
              model.Ports := [Examples.grpc90];
              model.Resolution_ := model.ClientSideLB |} H).
Defined.

(** ** Clusters without user policy *)

Section PlainFacts.
Context {imports : Imports}.

Lemma inbound_cluster_plain env name port servicePort :
  let c :=
    setUpstreamProtocol
      (buildDefaultCluster env name v2.Cluster_STATIC (loopback port))
      servicePort in
  v2.Name c = name /\
  v2.LbPolicy c = v2.Cluster_ROUND_ROBIN /\
  v2.ConnectTimeout c
  = ConvertGogoDurationToDuration (model.ConnectTimeout (model.Mesh env)) /\
  plainCluster c.
Proof.
  cbv zeta. unfold plainCluster.
  set (d := buildDefaultCluster env name v2.Cluster_STATIC (loopback port)).
  destruct (buildDefaultCluster_fields env name v2.Cluster_STATIC
              (loopback port)) as (dN & _ & _ & _ & dC & dCT).
  destruct (buildDefaultCluster_policy_fields env name v2.Cluster_STATIC
              (loopback port)) as (dL & dTL & dO & dM & _).
  fold d in dN, dC, dCT, dL, dTL, dO, dM.
  destruct (setUpstreamProtocol_fields d servicePort)
    as (_ & _ & sC & sCT & sL & _).
  destruct (setUpstreamProtocol_frame d servicePort) as (sN & sTL & sM & sO).
  change (v2.LbPolicy d = v2.Cluster_ROUND_ROBIN) in dL.
  repeat split; congruence.
Qed.

End PlainFacts.

(** X20: a service without a destination rule.  It contributes exactly one
    cluster per port, and each of them is as the baseline made it: connect
    timeout from the mesh default, one empty thresholds record, no TLS
    context, no outlier detection, no max-requests-per-connection. *)
Theorem buildOutboundClusters_without_rule
    (imports : Imports) (env : model.Environment) (service : model.Service) :
  model.DestinationRule (model.IstioConfigStore_ env)
    (model.Hostname service) EmptyString = None ->
  List.length (buildOutboundClusters env [service])
  = List.length (model.Ports service) /\
  Forall (fun c =>
            plainCluster c /\
            v2.ConnectTimeout c
            = ConvertGogoDurationToDuration
                (model.ConnectTimeout (model.Mesh env)))
         (buildOutboundClusters env [service]).
Proof.
  intros Hrule.
  rewrite buildOutboundClusters_flat_map. simpl. rewrite app_nil_r.
  unfold serviceClusters. split.
  - induction (model.Ports service) as [| port ports IH]; simpl;
      [reflexivity |].
    rewrite length_app, IH. unfold portClusters. rewrite Hrule. reflexivity.
  - apply Forall_flat_map, Forall_forall. intros port _.
    unfold portClusters. rewrite Hrule.
    constructor; [| constructor].
    split; apply baselineCluster_fields.
Qed.

(** One service with one port and no rule. *)
Lemma buildOutboundClusters_without_rule_witness :
  model.DestinationRule (model.IstioConfigStore_ MoreExamples.envDns)
    "reviews.default.svc" EmptyString = None /\
  List.length
    (@buildOutboundClusters exampleImports MoreExamples.envDns
       [Examples.reviews model.DNSLB])
  = 1%nat.
Proof.
  split; [reflexivity |].
  exact (proj1
           (@buildOutboundClusters_without_rule exampleImports
              MoreExamples.envDns (Examples.reviews model.DNSLB) eq_refl)).
Defined.

(** X21: inbound clusters are baseline clusters.  Their names are, in
    order, the inbound subset keys of the instances (service hostname and
    service port) and then of the management ports under the hostname
    "mgmtCluster"; each is balanced by round robin, takes its connect
    timeout from the mesh default, and carries no TLS context, no outlier
    detection, no max-requests-per-connection and one empty thresholds
    record. *)
Theorem buildInboundClusters_names_and_baseline
    (imports : Imports) (env : model.Environment)
    (instances : list model.ServiceInstance)
    (managementPorts : list model.Port) :
  map (@v2.Name) (buildInboundClusters env instances managementPorts)
  = map (fun instance =>
           BuildSubsetKey model.TrafficDirectionInbound EmptyString
             (model.Hostname (model.Service_ instance))
             (model.ServicePort (model.Endpoint instance)))
        instances
    ++ map (fun port =>
              BuildSubsetKey model.TrafficDirectionInbound EmptyString
                ManagementClusterHostname port)
           managementPorts /\
  Forall (fun c =>
            v2.LbPolicy c = v2.Cluster_ROUND_ROBIN /\
            v2.ConnectTimeout c
            = ConvertGogoDurationToDuration
                (model.ConnectTimeout (model.Mesh env)) /\
            plainCluster c)
         (buildInboundClusters env instances managementPorts).
Proof.
  rewrite buildInboundClusters_map. split.
  - rewrite map_app, !map_map.
    f_equal; apply map_ext; intros x; apply inbound_cluster_plain.
  - apply Forall_app; split; apply Forall_map, Forall_forall; intros x _;
      apply inbound_cluster_plain.
Qed.

(** ** Thresholds and outlier detection *)

(** X22: outlier detection is replaced, not merged.  After two policies
    that both carry an outlier Http block, the cluster's outlier detection
    is built from the second block alone: its ejection time and interval are
    the second block's (unset if unset there, whatever the first block
    had), and a threshold of the second block that is zero or negative is
    unset, one that is a strictly positive 32-bit integer is stored as it
    is. *)
Theorem applyTrafficPolicy_outlier_detection_replaced
    (imports : Imports) (c : v2.Cluster) (p q : networking.TrafficPolicy)
    (op oq : networking.OutlierDetection)
    (hp hq : networking.OutlierDetection_HTTPSettings) :
  networking.OutlierDetection_ p = Some op ->
  networking.OutlierDetection_Http op = Some hp ->
  networking.OutlierDetection_ q = Some oq ->
  networking.OutlierDetection_Http oq = Some hq ->
  exists out,
    v2.OutlierDetection
      (applyTrafficPolicy (applyTrafficPolicy c (Some p)) (Some q))
    = Some out /\
    v2_cluster.BaseEjectionTime out = networking.BaseEjectionTime hq /\
    v2_cluster.Interval out = networking.Interval hq /\
    (networking.ConsecutiveErrors hq <= 0 ->
     v2_cluster.Consecutive_5Xx out = None) /\
    (positiveInt32 (networking.ConsecutiveErrors hq) ->
     v2_cluster.Consecutive_5Xx out
     = Some (networking.ConsecutiveErrors hq)) /\
    (networking.MaxEjectionPercent hq <= 0 ->
     v2_cluster.MaxEjectionPercent out = None) /\
    (positiveInt32 (networking.MaxEjectionPercent hq) ->
     v2_cluster.MaxEjectionPercent out
     = Some (networking.MaxEjectionPercent hq)).
Proof.
  intros Hp Hhp Hq Hhq.
  exists (outlierBlock hq).
  destruct (applyTrafficPolicy_by_field (applyTrafficPolicy c (Some p)) q)
    as (_ & _ & _ & _ & _ & _ & _ & _ & _ & _ & ->).
  rewrite applyOutlierDetection_OutlierDetection, Hq, Hhq.
  split; [reflexivity |].
  unfold outlierBlock; simpl.
  split; [reflexivity |]. split; [reflexivity |].
  split; [apply positive32_not_positive |].
  split; [apply positive32_positiveInt32 |].
  split; [apply positive32_not_positive | apply positive32_positiveInt32].
Qed.

(** Five consecutive errors and no ejection percent, applied twice. *)
Lemma applyTrafficPolicy_outlier_detection_replaced_witness :
  exists out,
    v2.OutlierDetection
      (@applyTrafficPolicy exampleImports
         (@applyTrafficPolicy exampleImports Examples.sevenSecondCluster
            (Some MoreExamples.outlierOnly))
         (Some MoreExamples.outlierOnly))
    = Some out /\
    v2_cluster.Consecutive_5Xx out = Some 5 /\
    v2_cluster.MaxEjectionPercent out = None.
Proof.
  destruct (@applyTrafficPolicy_outlier_detection_replaced exampleImports
              Examples.sevenSecondCluster
              MoreExamples.outlierOnly MoreExamples.outlierOnly
              _ _ MoreExamples.outlierHttp MoreExamples.outlierHttp
              eq_refl eq_refl eq_refl eq_refl)
    as (out & Hout & _ & _ & _ & H5 & H0 & _).
  exists out. split; [exact Hout |].
  split.
  - apply H5. unfold positiveInt32. simpl. lia.
  - apply H0. simpl. lia.
Defined.

(** X23: thresholds hold 32-bit values as they are.  For connection-pool
    settings whose numeric fields are 32-bit signed integers, the single
    thresholds record that [applyConnectionPool] installs has each field set
    to the corresponding setting when that is strictly positive and unset
    when it is zero or negative; no value is wrapped. *)
Theorem applyConnectionPool_thresholds_of_int32
    (imports : Imports) (c : v2.Cluster)
    (tcp : networking.ConnectionPoolSettings_TCPSettings)
    (http : networking.ConnectionPoolSettings_HTTPSettings) :
  - 2 ^ 31 <= networking.MaxConnections tcp < 2 ^ 31 ->
  - 2 ^ 31 <= networking.Http2MaxRequests http < 2 ^ 31 ->
  - 2 ^ 31 <= networking.Http1MaxPendingRequests http < 2 ^ 31 ->
  - 2 ^ 31 <= networking.MaxRetries http < 2 ^ 31 ->
  let keep := fun x : Z => if 0 <? x then Some x else None in
  v2.CircuitBreakers
    (applyConnectionPool c
       (Some {| networking.Tcp := Some tcp; networking.Http := Some http |}))
  = Some
      {| v2_cluster.Thresholds :=
           [ {| v2_cluster.MaxConnections :=
                  keep (networking.MaxConnections tcp);
                v2_cluster.MaxPendingRequests :=
                  keep (networking.Http1MaxPendingRequests http);
                v2_cluster.MaxRequests :=
                  keep (networking.Http2MaxRequests http);
                v2_cluster.MaxRetries :=
                  keep (networking.MaxRetries http) |} ] |}.
Proof.
  intros Hc Hr Hp Hm. cbv zeta.
  rewrite applyConnectionPool_CircuitBreakers.
  assert (K : forall x, - 2 ^ 31 <= x < 2 ^ 31 ->
                        positive32 x = if 0 <? x then Some x else None).
  { intros x Hx. unfold positive32.
    destruct (Z.ltb_spec 0 x) as [Hpos | _]; [| reflexivity].
    rewrite uint32_small by lia. reflexivity. }
  unfold poolThresholds; simpl.
  rewrite (K _ Hc), (K _ Hr), (K _ Hp), (K _ Hm). reflexivity.
Qed.

(** The rule-level pool of the examples. *)
Lemma applyConnectionPool_thresholds_of_int32_witness :
  v2.CircuitBreakers
    (@applyConnectionPool exampleImports Examples.sevenSecondCluster
       (Some Examples.rulePool))
  = Some
      {| v2_cluster.Thresholds :=
           [ {| v2_cluster.MaxConnections := Some 10;
                v2_cluster.MaxPendingRequests := Some 64;
                v2_cluster.MaxRequests := Some 128;
                v2_cluster.MaxRetries := Some 2 |} ] |}.
Proof.
  refine (@applyConnectionPool_thresholds_of_int32 exampleImports
            Examples.sevenSecondCluster (Examples.tcpMaxConnections 10)
            {| networking.Http1MaxPendingRequests := 64;
               networking.Http2MaxRequests := 128;
               networking.MaxRequestsPerConnection := 4;
               networking.MaxRetries := 2 |} _ _ _ _); simpl; lia.
Defined.

(** ** The connect-timeout pass *)

(** X24: the pass of [BuildClusters] changes zero connect timeouts and
    nothing else.  For a proxy that is not a sidecar and a registry that
    answers, the returned list is the outbound list cluster by cluster:
    a cluster with a non-zero connect timeout is returned as built, a
    cluster with a zero connect timeout is returned with 5s and is otherwise
    as built. *)
Theorem BuildClusters_pass_changes_zero_timeouts_only
    (imports : Imports) (env : model.Environment) (proxy : model.Proxy)
    (services : list model.Service) :
  model.Type_ proxy <> model.Sidecar ->
  model.Services (model.ServiceDiscovery_ env) = model.Ok services ->
  exists clusters,
    BuildClusters env proxy = Some clusters /\
    Forall2 (fun returned built =>
               (v2.ConnectTimeout built <> 0 /\ returned = built) \/
               (v2.ConnectTimeout built = 0 /\
                returned = v2.set_ConnectTimeout built (5 * time.Second)))
            clusters (buildOutboundClusters env services).
Proof.
  intros Hp Hs.
  exists (map fixConnectTimeout (buildOutboundClusters env services)).
  split.
  - unfold BuildClusters. rewrite Hs.
    destruct (model.Type_ proxy); [now elim Hp | |]; reflexivity.
  - induction (buildOutboundClusters env services) as [| c l IH]; simpl;
      constructor; [| exact IH].
    unfold fixConnectTimeout.
    destruct (Z.eqb_spec (v2.ConnectTimeout c) 0) as [E | E];
      [right | left]; split; try assumption; reflexivity.
Qed.

(** Two ports and one subset: the router gets the four clusters. *)
Lemma BuildClusters_pass_changes_zero_timeouts_only_witness :
  model.Type_ Examples.router <> model.Sidecar /\
  exists clusters,
    @BuildClusters exampleImports Examples.envReviewsV2 Examples.router
    = Some clusters /\
    List.length clusters = 4%nat.
Proof.
  assert (H : model.Type_ Examples.router <> model.Sidecar) by discriminate.
  split; [exact H |].
  destruct (@BuildClusters_pass_changes_zero_timeouts_only exampleImports
              Examples.envReviewsV2 Examples.router _ H eq_refl)
    as (clusters & Hc & HF).
  exists clusters. split; [exact Hc |].
  rewrite (Forall2_length HF). reflexivity.
Defined.

(** ** TLS contexts and balancers, layer by layer *)




